(** * Detector: the frame-capture and decimation pipeline of js8call

    A shallow embedding of [src/Detector.cpp].  The member functions of the
    class [Detector] become functions over a record holding its data members
    together with the two fields of the global [dec_data] that they touch
    ([dec_data.params.kin] and [dec_data.d2]).  The wall clock read through
    [DriftingDateTime::currentMSecsSinceEpoch] is an explicit argument, one
    per reading.  Runs produce a list of observable events (lock, store,
    buffer write, signal emission, unlock) in program order. *)

From Stdlib Require Import ZArith Lia List Bool.
From stdpp Require Import base list sorting.

Open Scope Z_scope.

(** ** Machine integers *)

(** Value of a [w]-bit unsigned integer holding [x]. *)
Definition wrap (w : Z) (x : Z) : Z := x mod 2 ^ w.

(** [unsigned] (32 bits). *)
Definition u32 (x : Z) : Z := wrap 32 x.

(** [size_t] (64 bits). *)
Definition u64 (x : Z) : Z := wrap 64 x.

(** [int] and [qint32]: 32 bits, two's complement. *)
Definition i32 (x : Z) : Z :=
  let y := wrap 32 x in if y <? 2 ^ 31 then y else y - 2 ^ 32.

(** ** Outcomes *)

Inductive error : Type :=
| AssertionFailure   (* a Q_ASSERT that does not hold *)
| OutOfBounds        (* an access outside an array: undefined behaviour *)
| OutOfFuel.         (* the loop did not finish within the fuel given *)

Inductive result (A : Type) : Type :=
| Ok (a : A)
| Err (e : error).
Arguments Ok {A} a.
Arguments Err {A} e.

#[global] Instance result_ret : MRet result := fun A a => Ok a.

#[global] Instance result_bind : MBind result := fun A B k r =>
  match r with
  | Ok a => k a
  | Err e => Err e
  end.

(** ** Observable events *)

Inductive event : Type :=
| EvLock                                  (* QMutexLocker constructed on m_lock *)
| EvUnlock                                (* QMutexLocker destroyed at scope exit *)
| EvDropped (frames k ns : Z)             (* the qDebug line of writeData *)
| EvStore (byteOffset frames pos : Z)     (* store (&data[byteOffset], frames, &m_buffer[pos]) *)
| EvD2Write (index value : Z)             (* dec_data.d2[index] = value *)
| EvFramesWritten (k : Z).                (* Q_EMIT framesWritten (k) *)

(** ** std::rotate *)

(** [std::rotate (first, first + mid, last)] over the whole array: the
    element at [mid] becomes the first one.  [mid] must lie inside the
    array. *)
Definition std_rotate {A} (mid : nat) (l : list A) : list A :=
  drop mid l ++ take mid l.

(** The same call through reverse iterators,
    [std::rotate (rbegin, rbegin + mid, rend)]. *)
Definition std_rotate_rev {A} (mid : nat) (l : list A) : list A :=
  reverse (std_rotate mid (reverse l)).

(** ** What other headers declare *)

(** Modelled from the spec: the constants, the filter and the frame layout
    are declared in [Detector.hpp], [AudioDevice.hpp] and [commons.h], not
    in [Detector.cpp]; the model takes them as an interface.  The filter
    consumes a contiguous run of [NDOWN] samples and produces one output
    sample per call. *)
Class Platform : Type := {
  NDOWN : Z;                                 (* Detector::Filter::NDOWN *)
  JS8_NTMAX : Z;                             (* commons.h *)
  JS8_RING_BUFFER : bool;                    (* commons.h *)
  QT_NO_DEBUG : bool;                        (* set in a release build *)
  bytesPerFrame : Z;                         (* AudioDevice::bytesPerFrame () *)
  Filter : Type;                             (* Detector::Filter *)
  (* Filter::downSample: from the filter and the NDOWN samples its argument
     points to, the output sample and the filter afterwards *)
  downSample : Filter -> list Z -> Z * Filter;
  (* the sample AudioDevice::store extracts from the frame of the data that
     begins at a byte offset *)
  frameSample : list Byte.byte -> Z -> Z
}.

Section Detector.

Context {P : Platform}.

(** The data members of [Detector] and the part of [dec_data] it works
    on.  [m_bufferPos] and the window size [m_samplesPerFFT * NDOWN] are
    taken to be [size_t] values, as [Filter::NDOWN] and the loop variables
    they are compared with. *)
Record Detector : Type := mkDetector {
  m_frameRate : Z;           (* unsigned *)
  m_period : Z;              (* unsigned *)
  m_filter : Filter;
  m_buffer : list Z;         (* Working Sample Window *)
  m_bufferPos : Z;           (* size_t index into m_buffer *)
  m_samplesPerFFT : Z;
  m_ns : Z;                  (* qint32 *)
  kin : Z;                   (* dec_data.params.kin, an int *)
  d2 : list Z;               (* dec_data.d2 *)
  isOpen : bool              (* QIODevice::isOpen () *)
}.

Definition set_kin (k : Z) (s : Detector) : Detector :=
  mkDetector (m_frameRate s) (m_period s) (m_filter s) (m_buffer s)
    (m_bufferPos s) (m_samplesPerFFT s) (m_ns s) k (d2 s) (isOpen s).

Definition set_bufferPos (p : Z) (s : Detector) : Detector :=
  mkDetector (m_frameRate s) (m_period s) (m_filter s) (m_buffer s)
    p (m_samplesPerFFT s) (m_ns s) (kin s) (d2 s) (isOpen s).

Definition set_ns (n : Z) (s : Detector) : Detector :=
  mkDetector (m_frameRate s) (m_period s) (m_filter s) (m_buffer s)
    (m_bufferPos s) (m_samplesPerFFT s) n (kin s) (d2 s) (isOpen s).

Definition set_d2 (l : list Z) (s : Detector) : Detector :=
  mkDetector (m_frameRate s) (m_period s) (m_filter s) (m_buffer s)
    (m_bufferPos s) (m_samplesPerFFT s) (m_ns s) (kin s) l (isOpen s).

Definition set_buffer (l : list Z) (s : Detector) : Detector :=
  mkDetector (m_frameRate s) (m_period s) (m_filter s) l
    (m_bufferPos s) (m_samplesPerFFT s) (m_ns s) (kin s) (d2 s) (isOpen s).

Definition set_filter (f : Filter) (s : Detector) : Detector :=
  mkDetector (m_frameRate s) (m_period s) f (m_buffer s)
    (m_bufferPos s) (m_samplesPerFFT s) (m_ns s) (kin s) (d2 s) (isOpen s).

Definition set_samplesPerFFT (n : Z) (s : Detector) : Detector :=
  mkDetector (m_frameRate s) (m_period s) (m_filter s) (m_buffer s)
    (m_bufferPos s) n (m_ns s) (kin s) (d2 s) (isOpen s).

(** [sizeof (dec_data.d2) / sizeof (dec_data.d2[0])] *)
Definition d2_size (s : Detector) : Z := Z.of_nat (length (d2 s)).

(** [Detector::setBlockSize] *)
Definition setBlockSize (n : Z) (s : Detector) : Detector :=
  set_samplesPerFFT n s.

(** [Detector::secondInPeriod]; [now] is the clock reading.  The C++
    [%] and [/] on the signed [qint64] truncate towards zero; [m_period]
    is not zero in any use of the class. *)
Definition secondInPeriod (now : Z) (s : Detector) : Z :=
  let secondInToday := u32 (Z.quot (Z.rem now 86400000) 1000) in
  secondInToday mod m_period s.

(** [Detector::resetBufferContent] *)
Definition resetBufferContent (s : Detector) : Detector * list event :=
  (set_d2 (replicate (length (d2 s)) 0) s, [EvLock; EvUnlock]).

(** [msInPeriod] of [Detector::resetBufferPosition] (line 99) *)
Definition msInPeriod (now : Z) (s : Detector) : Z :=
  u32 (Z.rem (Z.rem now 86400000) (u32 (m_period s * 1000))).

(** [Detector::resetBufferPosition].  [now] is the clock reading of the
    function itself, [now'] the later one of its call to
    [secondInPeriod].  [std::rotate] with its middle outside the array is
    undefined. *)
Definition resetBufferPosition (now now' : Z) (s : Detector)
  : result (Detector * list event) :=
  let prevKin := kin s in
  let s1 := set_kin (i32 (Z.min (u32 (msInPeriod now s * m_frameRate s) / 1000)
                                (u32 (d2_size s)))) s in
  let s2 := set_bufferPos 0 s1 in
  let s3 := set_ns (i32 (secondInPeriod now' s2)) s2 in
  let delta := i32 (kin s3 - prevKin) in
  if delta <? 0 then
    if - delta <=? d2_size s3
    then Ok (set_d2 (std_rotate (Z.to_nat (- delta)) (d2 s3)) s3, [EvLock; EvUnlock])
    else Err OutOfBounds
  else
    if delta <=? d2_size s3
    then Ok (set_d2 (std_rotate_rev (Z.to_nat delta) (d2 s3)) s3, [EvLock; EvUnlock])
    else Err OutOfBounds.

(** [Detector::clear] *)
Definition clear (now now' : Z) (s : Detector) : result (Detector * list event) :=
  if JS8_RING_BUFFER then
    '(s1, t1) ← resetBufferPosition now now' s;
    let '(s2, t2) := resetBufferContent s1 in
    Ok (s2, t1 ++ t2)
  else
    Ok (set_bufferPos 0 (set_kin 0 s), []).

(** [Detector::reset] *)
Definition reset (now now' : Z) (s : Detector) : result (bool * Detector * list event) :=
  '(s1, t) ← clear now now' s;
  Ok (isOpen s1, s1, t).


(** Modelled from the spec: [AudioDevice::store], declared in
    [AudioDevice.hpp], copies [n] frames of [data] from byte offset [off]
    on into consecutive slots, one sample per frame. *)
Definition store (data : list Byte.byte) (off : Z) (n : Z) : list Z :=
  map (fun j => frameSample data (off + Z.of_nat j * bytesPerFrame))
      (seq 0 (Z.to_nat n)).

(** The inner [for] loop of [writeData] (lines 182-185), [n] rounds to go
    from loop index [i]. *)
Fixpoint downSampleLoop (n : nat) (i : Z) (s : Detector)
  : result (Detector * list event) :=
  match n with
  | O => Ok (s, [])
  | S n' =>
    let from := u64 (i * NDOWN) in
    if from + NDOWN <=? Z.of_nat (length (m_buffer s)) then
      let '(y, f) := downSample (m_filter s)
                       (take (Z.to_nat NDOWN) (drop (Z.to_nat from) (m_buffer s))) in
      let k := kin s in
      if (0 <=? k) && (k <? d2_size s) then
        let s1 := set_filter f (set_kin (i32 (k + 1))
                    (set_d2 (<[Z.to_nat k := y]> (d2 s)) s)) in
        '(s2, t) ← downSampleLoop n' (i + 1) s1;
        Ok (s2, EvD2Write k y :: t)
      else Err OutOfBounds
    else Err OutOfBounds
  end.

(** One round of the outer loop of [writeData] (lines 169-190): the
    number of frames processed, the state and the events. *)
Definition writeRound (data : list Byte.byte) (framesAccepted remaining : Z)
  (s : Detector) : result (Z * Detector * list event) :=
  let window := u64 (m_samplesPerFFT s * NDOWN) in
  let numFramesProcessed := Z.min (u64 (window - m_bufferPos s)) remaining in
  let off := u64 (u64 (framesAccepted - remaining) * bytesPerFrame) in
  let pos := m_bufferPos s in
  if pos + numFramesProcessed <=? Z.of_nat (length (m_buffer s)) then
    let s1 := set_buffer (list_inserts (Z.to_nat pos)
                            (store data off numFramesProcessed) (m_buffer s)) s in
    let s2 := set_bufferPos (u64 (pos + numFramesProcessed)) s1 in
    let ev := EvStore off numFramesProcessed pos in
    if m_bufferPos s2 =? window then
      '(s3, t) ← (if (0 <=? kin s2)
                     && (kin s2 <? i32 (JS8_NTMAX * 12000 - m_samplesPerFFT s2))
                  then downSampleLoop (Z.to_nat (m_samplesPerFFT s2)) 0 s2
                  else Ok (s2, []));
      Ok (numFramesProcessed, set_bufferPos 0 s3,
          ev :: t ++ [EvFramesWritten (kin s3)])
    else Ok (numFramesProcessed, s2, [ev])
  else Err OutOfBounds.

(** The outer loop of [writeData] (lines 166-191). *)
Fixpoint writeLoop (fuel : nat) (data : list Byte.byte)
  (framesAccepted remaining : Z) (s : Detector) : result (Detector * list event) :=
  if remaining =? 0 then Ok (s, [])
  else
    match fuel with
    | O => Err OutOfFuel
    | S fuel' =>
      '(n, s1, t1) ← writeRound data framesAccepted remaining s;
      '(s2, t2) ← writeLoop fuel' data framesAccepted (u64 (remaining - n)) s1;
      Ok (s2, t1 ++ t2)
    end.

(** Lines 142-147 of [writeData]: the period wraparound check. *)
Definition periodCheck (now : Z) (s : Detector) : Detector :=
  let ns := i32 (secondInPeriod now s) in
  set_ns ns (if ns <? m_ns s then set_bufferPos 0 (set_kin 0 s) else s).

(** [static_cast<size_t> (maxSize / bytesPerFrame ())] *)
Definition requestedFrames (maxSize : Z) : Z := u64 maxSize / bytesPerFrame.

(** [framesAcceptable] (line 155) *)
Definition framesAcceptable (s : Detector) : Z :=
  u64 (u64 (d2_size s - kin s) * NDOWN).

(** [framesAccepted] (line 156) *)
Definition framesAccepted (maxSize : Z) (s : Detector) : Z :=
  Z.min (requestedFrames maxSize) (framesAcceptable s).

(** [Q_ASSERT (cond)]: whether the program goes on.  Built with
    [QT_NO_DEBUG] the macro expands to nothing and [cond] is not looked
    at; built without, a [cond] that does not hold aborts the program. *)
Definition Q_ASSERT (cond : bool) : bool := cond || QT_NO_DEBUG.

(** [Detector::writeData]: the value returned, the state and the events.
    [fuel] bounds the rounds of the loop; [Err OutOfFuel] stands for a
    loop that has not ended by then. *)
Definition writeData (fuel : nat) (now : Z) (data : list Byte.byte) (maxSize : Z)
  (s : Detector) : result (Z * Detector * list event) :=
  let s1 := periodCheck now s in
  if Q_ASSERT (Z.rem maxSize bytesPerFrame =? 0) then
    let accepted := framesAccepted maxSize s1 in
    let dbg := if accepted <? requestedFrames maxSize
               then [EvDropped (requestedFrames maxSize - accepted) (kin s1) (m_ns s1)]
               else [] in
    '(s2, t) ← writeLoop fuel data accepted accepted s1;
    Ok (maxSize, s2, EvLock :: dbg ++ t ++ [EvUnlock])
  else Err AssertionFailure.

(** ** Reading a run *)

(** The outputs of [n] consecutive calls of [downSample] on the blocks of
    [buf] from block [i] on, and the filter afterwards. *)
Fixpoint filterRun (n : nat) (i : Z) (f : Filter) (buf : list Z) : list Z * Filter :=
  match n with
  | O => ([], f)
  | S n' =>
    let '(y, f1) := downSample f (take (Z.to_nat NDOWN) (drop (Z.to_nat (i * NDOWN)) buf)) in
    let '(ys, f2) := filterRun n' (i + 1) f1 buf in
    (y :: ys, f2)
  end.

(** The events of writing [ys] to consecutive slots of [d2] from [k] on. *)
Fixpoint d2Writes (k : Z) (ys : list Z) : list event :=
  match ys with
  | [] => []
  | y :: ys' => EvD2Write k y :: d2Writes (k + 1) ys'
  end.

(** Number of frames handed to [store] in a run. *)
Fixpoint storedFrames (t : list event) : Z :=
  match t with
  | [] => 0
  | EvStore _ n _ :: t' => n + storedFrames t'
  | _ :: t' => storedFrames t'
  end.

(** The calls of [store] in [t] read the frames of the input block one
    after the other, the first one at byte offset [off]. *)
Fixpoint storesFrom (off : Z) (t : list event) : Prop :=
  match t with
  | [] => True
  | EvStore o n _ :: t' => o = off /\ storesFrom (off + n * bytesPerFrame) t'
  | _ :: t' => storesFrom off t'
  end.

(** The window position of the first call of [store] in a run. *)
Fixpoint firstStorePos (t : list event) : option Z :=
  match t with
  | [] => None
  | EvStore _ _ pos :: _ => Some pos
  | _ :: t' => firstStorePos t'
  end.

(** The indices of [d2] written in a run. *)
Fixpoint writtenIndices (t : list event) : list Z :=
  match t with
  | [] => []
  | EvD2Write i _ :: t' => i :: writtenIndices t'
  | _ :: t' => writtenIndices t'
  end.

(** The values carried by the [framesWritten] signals of a run. *)
Fixpoint emissions (t : list event) : list Z :=
  match t with
  | [] => []
  | EvFramesWritten k :: t' => k :: emissions t'
  | _ :: t' => emissions t'
  end.

(** The [framesWritten] signals emitted while [m_lock] is held, resp. is
    not held; [held] tells whether it is at the start of [t]. *)
Fixpoint emissionsLocked (held : bool) (t : list event) : list Z :=
  match t with
  | [] => []
  | EvLock :: t' => emissionsLocked true t'
  | EvUnlock :: t' => emissionsLocked false t'
  | EvFramesWritten k :: t' =>
    if held then k :: emissionsLocked held t' else emissionsLocked held t'
  | _ :: t' => emissionsLocked held t'
  end.

Fixpoint emissionsUnlocked (held : bool) (t : list event) : list Z :=
  match t with
  | [] => []
  | EvLock :: t' => emissionsUnlocked true t'
  | EvUnlock :: t' => emissionsUnlocked false t'
  | EvFramesWritten k :: t' =>
    if held then emissionsUnlocked held t' else k :: emissionsUnlocked held t'
  | _ :: t' => emissionsUnlocked held t'
  end.

Definition isLockEvent (e : event) : bool :=
  match e with
  | EvLock | EvUnlock => true
  | _ => false
  end.

(** The byte offset handed to [store] when [rem] of [acc] accepted frames
    remain (line 171). *)
Definition byteOffset (acc rem : Z) : Z := u64 (u64 (acc - rem) * bytesPerFrame).

(** The working window after [store] has put [n] frames at the window
    position (lines 171-173). *)
Definition windowAfterStore (data : list Byte.byte) (off n : Z) (s : Detector) : list Z :=
  list_inserts (Z.to_nat (m_bufferPos s)) (store data off n) (m_buffer s).

(** The block of decimated samples one drain of the window [buf] yields. *)
Definition drainBlock (s : Detector) (buf : list Z) : list Z :=
  fst (filterRun (Z.to_nat (m_samplesPerFFT s)) 0 (m_filter s) buf).

(** ** Well-formed states *)

(** What the constructor and the callers of [setBlockSize] maintain: [d2]
    has the size [commons.h] gives it, [kin] lies within it, the block fits
    the working window and the window is not full between calls. *)
Definition wf (s : Detector) : Prop :=
  d2_size s = JS8_NTMAX * 12000 /\
  d2_size s < 2 ^ 31 /\
  0 <= kin s <= d2_size s /\
  0 < m_samplesPerFFT s /\
  m_samplesPerFFT s * NDOWN <= Z.of_nat (length (m_buffer s)) /\
  Z.of_nat (length (m_buffer s)) < 2 ^ 31 /\
  0 <= m_bufferPos s < m_samplesPerFFT s * NDOWN.

(** The part of it that does not speak of [kin]. *)
Definition wfWindow (s : Detector) : Prop :=
  d2_size s = JS8_NTMAX * 12000 /\
  d2_size s < 2 ^ 31 /\
  0 < m_samplesPerFFT s /\
  m_samplesPerFFT s * NDOWN <= Z.of_nat (length (m_buffer s)) /\
  Z.of_nat (length (m_buffer s)) < 2 ^ 31 /\
  0 <= m_bufferPos s < m_samplesPerFFT s * NDOWN.

(** What a run of the outer loop from [s] to [s'] with events [t] keeps:
    the state stays well formed, [kin] does not go back, the settings and
    the recorded second are untouched, every write to [d2] is inside it and
    the lock is not touched. *)
Definition advance (s s' : Detector) (t : list event) : Prop :=
  wf s' /\
  kin s <= kin s' /\
  m_ns s' = m_ns s /\
  m_samplesPerFFT s' = m_samplesPerFFT s /\
  m_period s' = m_period s /\
  m_frameRate s' = m_frameRate s /\
  isOpen s' = isOpen s /\
  Forall (fun i => 0 <= i < d2_size s) (writtenIndices t) /\
  Forall (fun e => isLockEvent e = false) t.

(** What a call of [writeData] that restarts the period shows: the period
    check leaves [kin] and the window position at 0 and records the second;
    the call does not depend on the [kin] and window position it found; it
    goes through, its first [store], if any, lands at window position 0
    and its first write to [d2], if any, at index 0. *)
Definition restartsPeriod (fuel : nat) (now : Z) (data : list Byte.byte)
  (maxSize : Z) (s : Detector) : Prop :=
  kin (periodCheck now s) = 0 /\
  m_bufferPos (periodCheck now s) = 0 /\
  m_ns (periodCheck now s) = i32 (secondInPeriod now s) /\
  writeData fuel now data maxSize s
  = writeData fuel now data maxSize (set_bufferPos 0 (set_kin 0 s)) /\
  exists s' t,
    writeData fuel now data maxSize s = Ok (maxSize, s', t) /\
    m_ns s' = i32 (secondInPeriod now s) /\
    (firstStorePos t = None \/ firstStorePos t = Some 0) /\
    (head (writtenIndices t) = None \/ head (writtenIndices t) = Some 0).

End Detector.

(** ** A small installation *)

(** Decimation by 4 as in the filter design notes of the source, a period
    of at most one minute, mono 16-bit frames, and a filter that keeps the
    first sample of each block. *)
Definition demo : Platform := {|
  NDOWN := 4;
  JS8_NTMAX := 60;
  JS8_RING_BUFFER := true;
  QT_NO_DEBUG := false;
  bytesPerFrame := 2;
  Filter := unit;
  downSample := fun f block => (hd 0 block, f);
  frameSample := fun data off => off
|}.

Definition demoState (k pos ns : Z) : @Detector demo :=
  @mkDetector demo 12000 60 tt (replicate 16 0) pos 4 ns k
    (replicate (Z.to_nat 720000) 0) true.

(** The same installation built without the ring buffer, and a state of it
    whose [d2] holds samples of an earlier period. *)
Definition demoLinear : Platform := {|
  NDOWN := 4;
  JS8_NTMAX := 60;
  JS8_RING_BUFFER := false;
  QT_NO_DEBUG := false;
  bytesPerFrame := 2;
  Filter := unit;
  downSample := fun f block => (hd 0 block, f);
  frameSample := fun data off => off
|}.

Definition staleState : @Detector demoLinear :=
  @mkDetector demoLinear 12000 60 tt (replicate 16 0) 3 4 0 5
    (replicate (Z.to_nat 720000) 7) true.

(** The installation as a release build, where [Q_ASSERT] expands to
    nothing, and its idle state. *)
Definition demoRelease : Platform := {|
  NDOWN := 4;
  JS8_NTMAX := 60;
  JS8_RING_BUFFER := true;
  QT_NO_DEBUG := true;
  bytesPerFrame := 2;
  Filter := unit;
  downSample := fun f block => (hd 0 block, f);
  frameSample := fun data off => off
|}.

Definition releaseState : @Detector demoRelease :=
  @mkDetector demoRelease 12000 60 tt (replicate 16 0) 0 4 0 0
    (replicate (Z.to_nat 720000) 0) true.

(** ** Facts on machine integers *)

Lemma u32_small (x : Z) : 0 <= x < 2 ^ 32 -> u32 x = x.
Proof. intros H. unfold u32, wrap. apply Z.mod_small. exact H. Qed.

Lemma u64_small (x : Z) : 0 <= x < 2 ^ 64 -> u64 x = x.
Proof. intros H. unfold u64, wrap. apply Z.mod_small. exact H. Qed.

Lemma u32_range (x : Z) : 0 <= u32 x < 2 ^ 32.
Proof. unfold u32, wrap. apply Z.mod_pos_bound. lia. Qed.

Lemma i32_small (x : Z) : - 2 ^ 31 <= x < 2 ^ 31 -> i32 x = x.
Proof.
  intros H. unfold i32, wrap.
  destruct (Z_lt_le_dec x 0) as [Hneg | Hpos].
  - replace (x mod 2 ^ 32) with (x + 2 ^ 32).
    + destruct (Z.ltb_spec (x + 2 ^ 32) (2 ^ 31)); lia.
    + apply (Z.mod_unique_pos _ _ (-1)); lia.
  - rewrite Z.mod_small by lia.
    destruct (Z.ltb_spec x (2 ^ 31)); lia.
Qed.

(** ** Facts on event lists *)

Lemma storedFrames_app (t1 t2 : list event) :
  storedFrames (t1 ++ t2) = storedFrames t1 + storedFrames t2.
Proof.
  induction t1 as [| e t1 IH]; simpl; [reflexivity |].
  destruct e; rewrite ?IH; lia.
Qed.

Lemma writtenIndices_app (t1 t2 : list event) :
  writtenIndices (t1 ++ t2) = writtenIndices t1 ++ writtenIndices t2.
Proof.
  induction t1 as [| e t1 IH]; simpl; [reflexivity |].
  destruct e; rewrite ?IH; reflexivity.
Qed.

Lemma emissions_app (t1 t2 : list event) :
  emissions (t1 ++ t2) = emissions t1 ++ emissions t2.
Proof.
  induction t1 as [| e t1 IH]; simpl; [reflexivity |].
  destruct e; rewrite ?IH; reflexivity.
Qed.

Lemma storedFrames_d2Writes (ys : list Z) : forall k, storedFrames (d2Writes k ys) = 0.
Proof. induction ys as [| y ys IH]; intros k; simpl; [reflexivity | apply IH]. Qed.

Lemma emissions_d2Writes (ys : list Z) : forall k, emissions (d2Writes k ys) = [].
Proof. induction ys as [| y ys IH]; intros k; simpl; [reflexivity | apply IH]. Qed.

Lemma d2Writes_no_lock (ys : list Z) :
  forall k, Forall (fun e => isLockEvent e = false) (d2Writes k ys).
Proof.
  induction ys as [| y ys IH]; intros k; simpl; constructor; [reflexivity | apply IH].
Qed.

Lemma emissions_split_no_lock (held : bool) (body rest : list event) :
  Forall (fun e => isLockEvent e = false) body ->
  emissionsLocked held (body ++ rest)
  = (if held then emissions body else []) ++ emissionsLocked held rest /\
  emissionsUnlocked held (body ++ rest)
  = (if held then [] else emissions body) ++ emissionsUnlocked held rest.
Proof.
  induction 1 as [| e body He _ IH]; simpl.
  - destruct held; split; reflexivity.
  - destruct IH as [IH1 IH2].
    destruct e; simpl in He; try discriminate; rewrite ?IH1, ?IH2;
      destruct held; split; reflexivity.
Qed.

Lemma firstStorePos_app (t1 t2 : list event) :
  firstStorePos (t1 ++ t2)
  = match firstStorePos t1 with Some p => Some p | None => firstStorePos t2 end.
Proof.
  induction t1 as [| e t1 IH]; simpl; [reflexivity |].
  destruct e; try exact IH. reflexivity.
Qed.

Lemma firstStorePos_d2Writes (ys : list Z) : forall k, firstStorePos (d2Writes k ys) = None.
Proof. induction ys as [| y ys IH]; intros k; simpl; [reflexivity | apply IH]. Qed.

Lemma list_inserts_splice {A} (l k : list A) (i : nat) :
  (i + length k <= length l)%nat ->
  list_inserts i k l = take i l ++ k ++ drop (i + length k) l.
Proof.
  intros Hfit.
  rewrite <- (take_drop i l) at 1.
  rewrite <- (take_drop (length k) (drop i l)) at 1.
  replace i with (length (take i l) + 0)%nat at 1 by (rewrite length_take; lia).
  rewrite list_inserts_app_r, list_inserts_0_r, drop_drop.
  - reflexivity.
  - rewrite length_take, length_drop. lia.
Qed.

(** ** The states of the small installation are well formed *)

Lemma demoState_wf (k pos ns : Z) :
  0 <= k <= 720000 -> 0 <= pos < 16 -> wf (demoState k pos ns).
Proof.
  intros Hk Hpos. unfold wf, d2_size, demoState.
  cbn [d2 kin m_samplesPerFFT m_buffer m_bufferPos NDOWN JS8_NTMAX demo].
  rewrite !length_replicate, Z2Nat.id by lia. lia.
Qed.

Lemma demoState_size (k pos ns : Z) : d2_size (demoState k pos ns) = 720000.
Proof.
  unfold d2_size, demoState. cbn [d2]. rewrite length_replicate. lia.
Qed.

(** ** Facts on rotations *)

Lemma std_rotate_length {A} (mid : nat) (l : list A) :
  length (std_rotate mid l) = length l.
Proof.
  unfold std_rotate. rewrite length_app, length_drop, length_take. lia.
Qed.

Lemma std_rotate_perm {A} (mid : nat) (l : list A) : std_rotate mid l ≡ₚ l.
Proof.
  unfold std_rotate. rewrite Permutation_app_comm, take_drop. reflexivity.
Qed.

(** Through reverse iterators the array turns the other way. *)
Lemma std_rotate_rev_eq {A} (mid : nat) (l : list A) :
  (mid <= length l)%nat -> std_rotate_rev mid l = std_rotate (length l - mid) l.
Proof.
  intros Hmid. unfold std_rotate_rev, std_rotate.
  rewrite reverse_app, take_reverse, drop_reverse, !reverse_involutive.
  reflexivity.
Qed.

(** [std::rotate] moves the element at index [i] to index
    [(i - mid) mod length]. *)
Lemma std_rotate_moves {A} (mid : nat) (l : list A) (i : Z) :
  (mid <= length l)%nat -> 0 <= i < Z.of_nat (length l) ->
  std_rotate mid l !! Z.to_nat ((i - Z.of_nat mid) mod Z.of_nat (length l))
  = l !! Z.to_nat i.
Proof.
  intros Hmid Hi. unfold std_rotate.
  destruct (Z_lt_le_dec i (Z.of_nat mid)) as [Hlow | Hhigh].
  - replace ((i - Z.of_nat mid) mod Z.of_nat (length l))
      with (i - Z.of_nat mid + Z.of_nat (length l)).
    + rewrite lookup_app_r by (rewrite length_drop; lia).
      rewrite length_drop, lookup_take_lt by lia.
      f_equal. lia.
    + apply (Z.mod_unique_pos _ _ (-1)); lia.
  - rewrite Z.mod_small by lia.
    rewrite lookup_app_l by (rewrite length_drop; lia).
    rewrite lookup_drop. f_equal. lia.
Qed.

(** ** Facts on the decimation loop *)

Section DecimationFacts.

Context {P : Platform}.
Hypothesis NDOWN_pos : 0 < NDOWN.

Lemma filterRun_length (n : nat) :
  forall i f buf, length (fst (filterRun n i f buf)) = n.
Proof.
  induction n as [| n IH]; intros i f buf; simpl; [reflexivity |].
  destruct (downSample f _) as [y f1].
  specialize (IH (i + 1) f1 buf).
  destruct (filterRun n (i + 1) f1 buf) as [ys f2]. simpl in *. lia.
Qed.

Lemma d2Writes_indices (ys : list Z) :
  forall k, writtenIndices (d2Writes k ys) = map (fun j => k + Z.of_nat j) (seq 0 (length ys)).
Proof.
  induction ys as [| y ys IH]; intros k; simpl; [reflexivity |].
  rewrite Z.add_0_r. f_equal. rewrite IH, <- seq_shift, map_map.
  apply map_ext. intros j. lia.
Qed.

(** The decimation loop writes the filter outputs to consecutive slots. *)
Lemma downSampleLoop_spec (n : nat) :
  forall i s,
    0 <= i ->
    (i + Z.of_nat n) * NDOWN <= Z.of_nat (length (m_buffer s)) ->
    Z.of_nat (length (m_buffer s)) < 2 ^ 31 ->
    0 <= kin s ->
    kin s + Z.of_nat n <= d2_size s ->
    d2_size s < 2 ^ 31 ->
    downSampleLoop n i s =
    Ok (set_filter (snd (filterRun n i (m_filter s) (m_buffer s)))
          (set_kin (kin s + Z.of_nat n)
             (set_d2 (list_inserts (Z.to_nat (kin s))
                        (fst (filterRun n i (m_filter s) (m_buffer s))) (d2 s)) s)),
        d2Writes (kin s) (fst (filterRun n i (m_filter s) (m_buffer s)))).
Proof.
  induction n as [| n IH]; intros i s Hi Hbuf Hlen Hk Hroom Hcap.
  - simpl. rewrite Z.add_0_r. destruct s; reflexivity.
  - cbn [downSampleLoop filterRun].
    rewrite u64_small by nia.
    destruct (Z.leb_spec (i * NDOWN + NDOWN) (Z.of_nat (length (m_buffer s)))); [| nia].
    destruct (downSample (m_filter s) _) as [y f1] eqn:Hds.
    destruct (Z.leb_spec 0 (kin s)); [| lia].
    destruct (Z.ltb_spec (kin s) (d2_size s)); [| lia].
    cbn [andb].
    rewrite i32_small by lia.
    match goal with |- context [downSampleLoop n (i + 1) ?s1] =>
      specialize (IH (i + 1) s1) end.
    cbn in IH. unfold d2_size in *. cbn in IH.
    rewrite length_insert in IH.
    rewrite IH by lia. clear IH.
    destruct (filterRun n (i + 1) f1 (m_buffer s)) as [ys f2].
    cbn. unfold set_filter, set_kin, set_d2. cbn.
    replace (Z.to_nat (kin s + 1)) with (S (Z.to_nat (kin s))) by lia.
    rewrite list_insert_inserts_lt by lia.
    do 2 f_equal. f_equal. lia.
Qed.

End DecimationFacts.

(** ** Facts on one round of the outer loop *)

Section RoundFacts.

Context {P : Platform}.
Hypothesis NDOWN_pos : 0 < NDOWN.

Lemma wf_wfWindow (s : Detector) : wf s -> wfWindow s.
Proof. unfold wf, wfWindow. tauto. Qed.

Lemma wf_window (s : Detector) :
  wfWindow s -> u64 (m_samplesPerFFT s * NDOWN) = m_samplesPerFFT s * NDOWN.
Proof. intros (_ & _ & ? & ? & ? & ?). apply u64_small. lia. Qed.

Lemma wf_room (s : Detector) :
  wfWindow s ->
  u64 (u64 (m_samplesPerFFT s * NDOWN) - m_bufferPos s)
  = m_samplesPerFFT s * NDOWN - m_bufferPos s.
Proof.
  intros Hwf. rewrite wf_window by assumption.
  destruct Hwf as (_ & _ & ? & ? & ? & ?). apply u64_small. lia.
Qed.

(** The round that does not fill the window only stores. *)
Lemma writeRound_partial (data : list Byte.byte) (acc rem : Z) (s : Detector) :
  wf s -> 0 < rem -> rem < m_samplesPerFFT s * NDOWN - m_bufferPos s ->
  writeRound data acc rem s =
  Ok (rem,
      set_bufferPos (m_bufferPos s + rem)
        (set_buffer (windowAfterStore data (byteOffset acc rem) rem s) s),
      [EvStore (byteOffset acc rem) rem (m_bufferPos s)]).
Proof.
  intros Hwf Hrem Hlt. unfold writeRound.
  rewrite wf_room, wf_window by first [assumption | apply wf_wfWindow; assumption].
  destruct Hwf as (_ & _ & _ & ? & ? & ? & ?).
  rewrite Z.min_r by lia.
  destruct (Z.leb_spec (m_bufferPos s + rem) (Z.of_nat (length (m_buffer s)))); [| lia].
  cbn. rewrite u64_small by lia.
  destruct (Z.eqb_spec (m_bufferPos s + rem) (m_samplesPerFFT s * NDOWN)); [lia |].
  reflexivity.
Qed.

(** The round that fills the window while the bounds check holds
    decimates one block into [d2] and emits the signal once. *)
Lemma writeRound_drain (data : list Byte.byte) (acc rem : Z) (s : Detector) :
  wf s ->
  m_samplesPerFFT s * NDOWN - m_bufferPos s <= rem ->
  0 <= kin s < JS8_NTMAX * 12000 - m_samplesPerFFT s ->
  let n := m_samplesPerFFT s * NDOWN - m_bufferPos s in
  let off := byteOffset acc rem in
  let buf := windowAfterStore data off n s in
  let run := filterRun (Z.to_nat (m_samplesPerFFT s)) 0 (m_filter s) buf in
  writeRound data acc rem s =
  Ok (n,
      mkDetector (m_frameRate s) (m_period s) (snd run) buf 0 (m_samplesPerFFT s)
        (m_ns s) (kin s + m_samplesPerFFT s)
        (list_inserts (Z.to_nat (kin s)) (fst run) (d2 s)) (isOpen s),
      EvStore off n (m_bufferPos s)
        :: d2Writes (kin s) (fst run)
        ++ [EvFramesWritten (kin s + m_samplesPerFFT s)]).
Proof.
  intros Hwf Hfill Hk n off buf run. unfold writeRound.
  rewrite wf_room, wf_window by first [assumption | apply wf_wfWindow; assumption].
  destruct Hwf as (Hsz & Hcap & Hkin & Hspf & Hfit & Hlen & Hpos).
  rewrite Z.min_l by lia. fold n. fold (byteOffset acc rem). fold off.
  destruct (Z.leb_spec (m_bufferPos s + n) (Z.of_nat (length (m_buffer s)))); [| lia].
  cbn [m_bufferPos set_bufferPos set_buffer m_samplesPerFFT kin].
  rewrite u64_small by lia.
  destruct (Z.eqb_spec (m_bufferPos s + n) (m_samplesPerFFT s * NDOWN)); [| lia].
  rewrite i32_small by lia.
  destruct (Z.leb_spec 0 (kin s)); [| lia].
  destruct (Z.ltb_spec (kin s) (JS8_NTMAX * 12000 - m_samplesPerFFT s)); [| lia].
  cbn [andb].
  rewrite downSampleLoop_spec; try assumption; cbn; unfold windowAfterStore in *;
    rewrite ?length_inserts; unfold d2_size in *; cbn; try lia.
  rewrite Z2Nat.id by lia. reflexivity.
Qed.

(** The round that fills the window while the bounds check fails still
    emits the signal, with [kin] as it was. *)
Lemma writeRound_discard (data : list Byte.byte) (acc rem : Z) (s : Detector) :
  wfWindow s ->
  m_samplesPerFFT s * NDOWN - m_bufferPos s <= rem ->
  ~ (0 <= kin s < JS8_NTMAX * 12000 - m_samplesPerFFT s) ->
  let n := m_samplesPerFFT s * NDOWN - m_bufferPos s in
  let off := byteOffset acc rem in
  writeRound data acc rem s =
  Ok (n,
      mkDetector (m_frameRate s) (m_period s) (m_filter s)
        (windowAfterStore data off n s) 0 (m_samplesPerFFT s)
        (m_ns s) (kin s) (d2 s) (isOpen s),
      [EvStore off n (m_bufferPos s); EvFramesWritten (kin s)]).
Proof.
  intros Hwf Hfill Hk n off. unfold writeRound.
  rewrite wf_room, wf_window by first [assumption | apply wf_wfWindow; assumption].
  destruct Hwf as (Hsz & Hcap & Hspf & Hfit & Hlen & Hpos).
  rewrite Z.min_l by lia. fold n. fold (byteOffset acc rem). fold off.
  destruct (Z.leb_spec (m_bufferPos s + n) (Z.of_nat (length (m_buffer s)))); [| lia].
  cbn [m_bufferPos set_bufferPos set_buffer m_samplesPerFFT kin].
  rewrite u64_small by lia.
  destruct (Z.eqb_spec (m_bufferPos s + n) (m_samplesPerFFT s * NDOWN)); [| lia].
  assert (m_samplesPerFFT s < 2 ^ 31) by nia.
  assert (0 <= d2_size s) by (unfold d2_size; lia).
  rewrite i32_small by lia.
  destruct (Z.leb_spec 0 (kin s));
    destruct (Z.ltb_spec (kin s) (JS8_NTMAX * 12000 - m_samplesPerFFT s));
    try lia; reflexivity.
Qed.

Lemma storesFrom_app (t1 t2 : list event) :
  forall off,
    storesFrom off t1 ->
    storesFrom (off + storedFrames t1 * bytesPerFrame) t2 ->
    storesFrom off (t1 ++ t2).
Proof.
  induction t1 as [| e t1 IH]; intros off H1 H2; simpl in *.
  - replace off with (off + 0 * bytesPerFrame) by lia. exact H2.
  - destruct e; try (apply IH; assumption).
    destruct H1 as [-> H1]. split; [reflexivity |].
    apply IH; [assumption |].
    replace (off + frames * bytesPerFrame + storedFrames t1 * bytesPerFrame)
      with (off + (frames + storedFrames t1) * bytesPerFrame) by lia.
    exact H2.
Qed.

Lemma storesFrom_d2Writes (ys : list Z) (t : list event) :
  forall off k, storesFrom off t -> storesFrom off (d2Writes k ys ++ t).
Proof. induction ys as [| y ys IH]; intros off k H; simpl; [exact H | apply IH, H]. Qed.

Lemma d2Writes_in_range (k : Z) (ys : list Z) (cap : Z) :
  0 <= k -> k + Z.of_nat (length ys) <= cap ->
  Forall (fun i => 0 <= i < cap) (writtenIndices (d2Writes k ys)).
Proof.
  intros Hk Hcap. rewrite d2Writes_indices. apply Forall_forall.
  intros i Hi. apply list_elem_of_In, in_map_iff in Hi.
  destruct Hi as (j & <- & Hj). apply in_seq in Hj. lia.
Qed.

(** Every round from a well-formed state succeeds, takes at least one
    frame and re-establishes what the loop keeps. *)
Lemma writeRound_advance (data : list Byte.byte) (acc rem : Z) (s : Detector) :
  wf s -> 0 < rem ->
  exists n s' t,
    writeRound data acc rem s = Ok (n, s', t) /\
    0 < n <= rem /\ advance s s' t /\ storedFrames t = n /\
    storesFrom (byteOffset acc rem) t.
Proof.
  intros Hwf Hrem.
  pose proof Hwf as (Hsz & Hcap & Hkin & Hspf & Hfit & Hlen & Hpos).
  destruct (Z_lt_le_dec rem (m_samplesPerFFT s * NDOWN - m_bufferPos s)) as [Hpart | Hfill].
  - eexists _, _, _. split; [apply writeRound_partial; assumption |].
    split; [lia |]. split; [| simpl; split; [lia | tauto]].
    unfold advance, wf, d2_size, windowAfterStore in *; cbn.
    rewrite length_inserts. repeat split; try lia; repeat constructor.
  - destruct (Z_le_dec 0 (kin s)) as [H0 | H0];
      [destruct (Z_lt_dec (kin s) (JS8_NTMAX * 12000 - m_samplesPerFFT s)) as [H1 | H1] |].
    + eexists _, _, _. split; [apply writeRound_drain; try assumption; lia |].
      split; [lia |].
      assert (Hys : forall b, Z.of_nat (length (fst (filterRun (Z.to_nat (m_samplesPerFFT s)) 0
                      (m_filter s) b))) = m_samplesPerFFT s).
      { intros b. rewrite filterRun_length. lia. }
      split.
      * unfold advance, wf, d2_size, windowAfterStore in *; cbn.
        rewrite !length_inserts, writtenIndices_app. cbn.
        rewrite app_nil_r.
        repeat split; try lia.
        -- apply d2Writes_in_range; [lia |]. rewrite Hys. lia.
        -- constructor; [reflexivity |]. apply Forall_app. split;
             [apply d2Writes_no_lock | repeat constructor].
      * cbn. rewrite storedFrames_app, storedFrames_d2Writes. simpl.
        split; [lia |]. split; [reflexivity |].
        apply storesFrom_d2Writes. exact I.
    + eexists _, _, _.
      split; [apply writeRound_discard; try (apply wf_wfWindow; assumption); lia |].
      split; [lia |]. split; [| simpl; split; [lia | tauto]].
      unfold advance, wf, d2_size, windowAfterStore in *; cbn.
      rewrite length_inserts. repeat split; try lia; repeat constructor.
    + lia.
Qed.

Lemma advance_refl (s : Detector) : wf s -> advance s s [].
Proof.
  intros Hwf. unfold advance. simpl.
  repeat split; try apply Hwf; try lia; constructor.
Qed.

Lemma advance_trans (s s1 s2 : Detector) (t1 t2 : list event) :
  wf s -> advance s s1 t1 -> advance s1 s2 t2 -> advance s s2 (t1 ++ t2).
Proof.
  intros Hwf (Hwf1 & ? & ? & ? & ? & ? & ? & Hi1 & Hl1) (Hwf2 & ? & ? & ? & ? & ? & ? & Hi2 & Hl2).
  unfold advance. rewrite writtenIndices_app.
  repeat split; try apply Hwf2; try congruence; try lia.
  - apply Forall_app. split; [exact Hi1 |].
    replace (d2_size s) with (d2_size s1); [exact Hi2 |].
    destruct Hwf as [-> _], Hwf1 as [-> _]. reflexivity.
  - apply Forall_app. split; assumption.
Qed.

(** The outer loop from a well-formed state ends with enough fuel, stores
    exactly the frames it was given, in order, and keeps what [advance]
    lists. *)
Lemma writeLoop_advance (data : list Byte.byte) (acc : Z) (fuel : nat) :
  forall rem s,
    wf s -> 0 <= rem <= acc -> acc * bytesPerFrame < 2 ^ 64 -> 0 < bytesPerFrame ->
    (Z.to_nat rem <= fuel)%nat ->
    exists s' t,
      writeLoop fuel data acc rem s = Ok (s', t) /\
      advance s s' t /\ storedFrames t = rem /\
      storesFrom ((acc - rem) * bytesPerFrame) t.
Proof.
  induction fuel as [| fuel IH]; intros rem s Hwf Hrem Hacc Hbpf Hfuel.
  - assert (rem = 0) as -> by lia. simpl.
    exists s, []. split; [reflexivity |]. split; [apply advance_refl, Hwf |].
    split; [reflexivity | exact I].
  - cbn [writeLoop]. destruct (Z.eqb_spec rem 0) as [-> | Hnz].
    { exists s, []. split; [reflexivity |]. split; [apply advance_refl, Hwf |].
      split; [reflexivity | exact I]. }
    destruct (writeRound_advance data acc rem s Hwf) as (n & s1 & t1 & -> & Hn & Hadv & Hst & Hoff);
      [lia |].
    cbn. rewrite u64_small by nia.
    destruct (IH (rem - n) s1) as (s2 & t2 & -> & Hadv2 & Hst2 & Hoff2);
      [apply Hadv | lia | assumption | assumption | lia |].
    cbn. exists s2, (t1 ++ t2). split; [reflexivity |].
    split; [eapply advance_trans; eassumption |].
    rewrite storedFrames_app. split; [lia |].
    assert (Hbo : byteOffset acc rem = (acc - rem) * bytesPerFrame).
    { unfold byteOffset. rewrite (u64_small (acc - rem)) by nia. apply u64_small. nia. }
    rewrite Hbo in Hoff. apply storesFrom_app; [exact Hoff |].
    rewrite Hst. replace ((acc - rem) * bytesPerFrame + n * bytesPerFrame)
      with ((acc - (rem - n)) * bytesPerFrame) by lia.
    exact Hoff2.
Qed.

(** The store of a round lands at the window position the round finds,
    and its first write to [d2], if any, at the [kin] it finds. *)
Lemma writeRound_first (data : list Byte.byte) (acc rem : Z) (s : Detector) :
  wf s -> 0 < rem ->
  forall n s' t,
    writeRound data acc rem s = Ok (n, s', t) ->
    firstStorePos t = Some (m_bufferPos s) /\
    (head (writtenIndices t) = Some (kin s) \/
     (writtenIndices t = [] /\ kin s' = kin s)).
Proof.
  intros Hwf Hrem n s' t Hround.
  pose proof Hwf as (Hsz & Hcap & Hkin & Hspf & Hfit & Hlen & Hpos).
  destruct (Z_lt_le_dec rem (m_samplesPerFFT s * NDOWN - m_bufferPos s)) as [Hpart | Hfill].
  - rewrite writeRound_partial in Hround by assumption.
    injection Hround as <- <- <-. split; [reflexivity |]. right. split; reflexivity.
  - destruct (Z_lt_dec (kin s) (JS8_NTMAX * 12000 - m_samplesPerFFT s)) as [H1 | H1].
    + rewrite writeRound_drain in Hround by (assumption || lia).
      injection Hround as <- <- <-. split; [reflexivity |]. left.
      cbn. rewrite writtenIndices_app.
      destruct (fst (filterRun _ _ _ _)) as [| y ys] eqn:Hys.
      * apply (f_equal length) in Hys. rewrite filterRun_length in Hys.
        cbn in Hys. lia.
      * reflexivity.
    + rewrite writeRound_discard in Hround
        by (assumption || lia || (apply wf_wfWindow; assumption)).
      injection Hround as <- <- <-. split; [reflexivity |]. right. split; reflexivity.
Qed.

Lemma writeLoop_first (data : list Byte.byte) (acc : Z) (fuel : nat) :
  forall rem s s' t,
    wf s -> 0 <= rem < 2 ^ 64 ->
    writeLoop fuel data acc rem s = Ok (s', t) ->
    (firstStorePos t = None \/ firstStorePos t = Some (m_bufferPos s)) /\
    (head (writtenIndices t) = Some (kin s) \/
     (writtenIndices t = [] /\ kin s' = kin s)).
Proof.
  induction fuel as [| fuel IH]; intros rem s s' t Hwf Hrem Hloop.
  - cbn in Hloop. destruct (rem =? 0); [| discriminate].
    injection Hloop as <- <-. split; [left; reflexivity | right; split; reflexivity].
  - cbn [writeLoop] in Hloop. destruct (Z.eqb_spec rem 0) as [-> | Hnz].
    { injection Hloop as <- <-. split; [left; reflexivity | right; split; reflexivity]. }
    destruct (writeRound_advance data acc rem s Hwf) as (n & s1 & t1 & Hround & Hn & Hadv & _);
      [lia |].
    destruct (writeRound_first data acc rem s Hwf ltac:(lia) n s1 t1 Hround) as [Hst Hwr].
    rewrite Hround in Hloop. cbn in Hloop.
    rewrite u64_small in Hloop by lia.
    destruct (writeLoop fuel data acc (rem - n) s1) as [[s2 t2] |] eqn:Hrest;
      [| discriminate].
    cbn in Hloop. injection Hloop as <- <-.
    destruct (IH (rem - n) s1 s2 t2) as [_ Hwr2]; [apply Hadv | lia | exact Hrest |].
    rewrite firstStorePos_app, Hst, writtenIndices_app.
    split; [right; reflexivity |].
    destruct Hwr as [Hhd | [Hnil Hk1]].
    + left. destruct (writtenIndices t1); [discriminate | exact Hhd].
    + rewrite Hnil. cbn [app]. rewrite <- Hk1. exact Hwr2.
Qed.

Lemma d2Writes_indices_seqZ (ys : list Z) (k : Z) :
  writtenIndices (d2Writes k ys) = seqZ k (Z.of_nat (length ys)).
Proof.
  rewrite d2Writes_indices. unfold seqZ. rewrite Nat2Z.id.
  apply map_ext. intros j. lia.
Qed.

Lemma writeLoop_done (data : list Byte.byte) (acc : Z) (fuel : nat) (s : Detector) :
  writeLoop fuel data acc 0 s = Ok (s, []).
Proof. destruct fuel; reflexivity. Qed.

(** A run of the outer loop emits [framesWritten] once for each time the
    window fills, [(m_bufferPos + rem) / (m_samplesPerFFT * NDOWN)] times in
    all, and leaves the remainder in the window.  While [kin] stays below
    the bound of the check, each fill adds [m_samplesPerFFT] samples to
    [d2], at consecutive indices, and the signals carry the successive
    values of [kin]. *)
Lemma writeLoop_fills (data : list Byte.byte) (acc : Z) (fuel : nat) :
  forall rem s,
    wf s -> 0 <= rem < 2 ^ 64 -> (Z.to_nat rem <= fuel)%nat ->
    let W := m_samplesPerFFT s * NDOWN in
    let m := (m_bufferPos s + rem) / W in
    exists s' t,
      writeLoop fuel data acc rem s = Ok (s', t) /\
      Z.of_nat (length (emissions t)) = m /\
      m_bufferPos s' = (m_bufferPos s + rem) mod W /\
      (kin s + m * m_samplesPerFFT s < d2_size s \/ m = 0 ->
       kin s' = kin s + m * m_samplesPerFFT s /\
       emissions t = (fun j => kin s + j * m_samplesPerFFT s) <$> seqZ 1 m /\
       writtenIndices t = seqZ (kin s) (m * m_samplesPerFFT s)).
Proof.
  induction fuel as [| fuel IH]; intros rem s Hwf Hrem Hfuel W m;
    pose proof Hwf as (Hsz & Hcap & Hkin & Hspf & Hfit & Hlen & Hpos).
  - assert (rem = 0) as -> by lia.
    assert (Hm : m = 0) by (unfold m, W; rewrite Z.add_0_r; apply Z.div_small; lia).
    exists s, []. rewrite Hm. cbn. rewrite Z.add_0_r, Z.mod_small by (unfold W; lia).
    repeat split; lia.
  - destruct (Z.eq_dec rem 0) as [-> | Hnz].
    { assert (Hm : m = 0) by (unfold m, W; rewrite Z.add_0_r; apply Z.div_small; lia).
      exists s, []. rewrite Hm. cbn. rewrite Z.add_0_r, Z.mod_small by (unfold W; lia).
      repeat split; lia. }
    cbn [writeLoop]. destruct (Z.eqb_spec rem 0) as [Hz | _]; [contradiction |].
    destruct (Z_lt_le_dec rem (W - m_bufferPos s)) as [Hpart | Hfill].
    + (* the window is not filled *)
      assert (Hm : m = 0) by (unfold m; apply Z.div_small; lia).
      rewrite writeRound_partial by (assumption || lia). cbn.
      rewrite Z.sub_diag. change (u64 0) with 0. rewrite writeLoop_done. cbn.
      eexists _, _. split; [reflexivity |]. rewrite Hm. cbn.
      rewrite Z.mod_small by lia. repeat split; lia.
    + (* the window is filled *)
      destruct (writeRound_advance data acc rem s Hwf) as (n & s1 & t1 & Hround & Hn & Hadv & _);
        [lia |].
      assert (Hwf1 : wf s1) by apply Hadv.
      assert (Hshape : n = W - m_bufferPos s /\ m_bufferPos s1 = 0 /\
                       m_samplesPerFFT s1 = m_samplesPerFFT s /\
                       d2_size s1 = d2_size s /\
                       length (emissions t1) = 1%nat /\
                       (kin s < d2_size s - m_samplesPerFFT s ->
                        kin s1 = kin s + m_samplesPerFFT s /\
                        emissions t1 = [kin s + m_samplesPerFFT s] /\
                        writtenIndices t1 = seqZ (kin s) (m_samplesPerFFT s))).
      { destruct (Z_lt_dec (kin s) (JS8_NTMAX * 12000 - m_samplesPerFFT s)) as [H1 | H1].
        - rewrite writeRound_drain in Hround by (assumption || lia).
          injection Hround as <- <- <-. cbn.
          rewrite emissions_app, emissions_d2Writes, writtenIndices_app,
            d2Writes_indices_seqZ, filterRun_length, Z2Nat.id, app_nil_r by lia.
          unfold d2_size. cbn. rewrite length_inserts.
          repeat split; reflexivity.
        - rewrite writeRound_discard in Hround
            by (assumption || lia || (apply wf_wfWindow; assumption)).
          injection Hround as <- <- <-. cbn.
          repeat split; try reflexivity; lia. }
      destruct Hshape as (-> & Hp1 & Hs1 & Hd1 & Hem1 & Hdrain).
      rewrite Hround. cbn. rewrite u64_small by lia.
      destruct (IH (rem - (W - m_bufferPos s)) s1 Hwf1) as (s2 & t2 & -> & Hcount & Hpos2 & Hvals);
        [lia | lia |].
      rewrite Hp1, Hs1 in Hcount, Hpos2, Hvals. fold W in Hcount, Hpos2, Hvals.
      rewrite ?Z.add_0_l in Hcount, Hpos2, Hvals.
      set (m' := (rem - (W - m_bufferPos s)) / W) in *.
      assert (Hm : m = m' + 1).
      { unfold m, m'. rewrite <- Z.div_add by (unfold W; lia). f_equal. lia. }
      assert (Hm' : 0 <= m').
      { unfold m'. apply Z.div_pos; unfold W; lia. }
      cbn. eexists _, _. split; [reflexivity |].
      rewrite emissions_app, length_app, Hem1.
      split; [lia |]. split.
      * rewrite Hpos2. rewrite <- (Z.mod_add _ 1 W) by (unfold W; lia). f_equal. lia.
      * intros Hroom.
        assert (Hk : kin s < d2_size s - m_samplesPerFFT s) by nia.
        destruct (Hdrain Hk) as (Hk1 & He1 & Hw1).
        destruct Hvals as (Hk2 & He2 & Hw2); [rewrite Hk1, Hd1; left; nia |].
        rewrite Hk1 in Hk2, He2, Hw2.
        rewrite writtenIndices_app, He1, He2, Hw1, Hw2, Hk2, Hm.
        split; [lia |]. split.
        -- rewrite (seqZ_cons 1 (m' + 1)) by lia. cbn [fmap list_fmap].
           rewrite Z.mul_1_l. f_equal.
           replace (Z.pred (m' + 1)) with m' by lia.
           change (Z.succ 1) with (1 + 1). rewrite <- fmap_add_seqZ, <- list_fmap_compose.
           apply list_fmap_ext. intros _ j _. cbn. lia.
        -- replace ((m' + 1) * m_samplesPerFFT s)
             with (m_samplesPerFFT s + m' * m_samplesPerFFT s) by lia.
           rewrite seqZ_app by nia. reflexivity.
Qed.

(** A round that takes all the remaining frames is the last one. *)
Lemma writeLoop_last_round (data : list Byte.byte) (acc rem : Z) (fuel : nat)
  (s s' : Detector) (t : list event) :
  rem <> 0 ->
  writeRound data acc rem s = Ok (rem, s', t) ->
  writeLoop (S fuel) data acc rem s = Ok (s', t).
Proof.
  intros Hnz Hround. cbn [writeLoop].
  destruct (Z.eqb_spec rem 0); [contradiction |].
  rewrite Hround. cbn. rewrite Z.sub_diag.
  change (u64 0) with 0.
  destruct fuel; cbn; rewrite app_nil_r; reflexivity.
Qed.

End RoundFacts.

(** ** Facts on resynchronisation *)

Section ResyncFacts.

Context {P : Platform}.

(** From a state whose [kin] lies within [d2], [resetBufferPosition] goes
    through; its result spelt out. *)
Lemma resetBufferPosition_run (now now' : Z) (s : Detector) :
  d2_size s < 2 ^ 31 -> 0 <= kin s <= d2_size s ->
  let newKin := Z.min (u32 (msInPeriod now s * m_frameRate s) / 1000) (d2_size s) in
  0 <= newKin <= d2_size s /\
  resetBufferPosition now now' s =
  Ok (mkDetector (m_frameRate s) (m_period s) (m_filter s) (m_buffer s) 0
        (m_samplesPerFFT s) (i32 (secondInPeriod now' s)) newKin
        (if newKin - kin s <? 0
         then std_rotate (Z.to_nat (kin s - newKin)) (d2 s)
         else std_rotate_rev (Z.to_nat (newKin - kin s)) (d2 s))
        (isOpen s),
      [EvLock; EvUnlock]).
Proof.
  intros Hcap Hkin newKin.
  assert (Hsz : 0 <= d2_size s) by (unfold d2_size; lia).
  assert (Hq : 0 <= u32 (msInPeriod now s * m_frameRate s) / 1000).
  { apply Z.div_pos; [apply u32_range | lia]. }
  assert (Hnew : 0 <= newKin <= d2_size s) by (unfold newKin; lia).
  split; [exact Hnew |].
  unfold resetBufferPosition.
  rewrite (u32_small (d2_size s)) by lia. fold newKin.
  rewrite (i32_small newKin) by lia.
  set (s3 := set_ns _ _).
  change (kin s3) with newKin. change (d2_size s3) with (d2_size s).
  change (d2 s3) with (d2 s).
  rewrite (i32_small (newKin - kin s)) by lia.
  destruct (Z.ltb_spec (newKin - kin s) 0).
  - destruct (Z.leb_spec (- (newKin - kin s)) (d2_size s)); [| lia].
    replace (- (newKin - kin s)) with (kin s - newKin) by lia. reflexivity.
  - destruct (Z.leb_spec (newKin - kin s) (d2_size s)); [| lia]. reflexivity.
Qed.

End ResyncFacts.

(** ** Facts on a whole call of [writeData] *)

Section WriteFacts.

Context {P : Platform}.
Hypothesis NDOWN_pos : 0 < NDOWN.
Hypothesis bytesPerFrame_pos : 0 < bytesPerFrame.

Lemma periodCheck_wf (now : Z) (s : Detector) : wf s -> wf (periodCheck now s).
Proof.
  intros (Hsz & Hcap & Hkin & Hspf & Hfit & Hlen & Hpos).
  unfold periodCheck, wf, d2_size in *.
  destruct (i32 (secondInPeriod now s) <? m_ns s); cbn; repeat split; lia.
Qed.

Lemma requestedFrames_exact (maxSize : Z) :
  0 <= maxSize < 2 ^ 63 -> requestedFrames maxSize = maxSize / bytesPerFrame.
Proof. intros H. unfold requestedFrames. rewrite u64_small by lia. reflexivity. Qed.

Lemma framesAcceptable_room (s : Detector) :
  wfWindow s -> - 2 ^ 31 <= kin s <= d2_size s ->
  framesAcceptable s = (d2_size s - kin s) * NDOWN.
Proof.
  intros (Hsz & Hcap & Hspf & Hfit & Hlen & Hpos) Hkin.
  unfold framesAcceptable.
  assert (0 <= d2_size s) by (unfold d2_size; lia).
  assert (NDOWN < 2 ^ 31) by nia.
  rewrite (u64_small (d2_size s - kin s)) by lia.
  apply u64_small. split; [nia |].
  apply Z.le_lt_trans with (2 ^ 32 * 2 ^ 31); [nia | lia].
Qed.

Lemma framesAcceptable_exact (s : Detector) :
  wf s -> framesAcceptable s = (d2_size s - kin s) * NDOWN.
Proof.
  intros Hwf. apply framesAcceptable_room; [apply wf_wfWindow, Hwf |].
  destruct Hwf as (_ & _ & ? & _). lia.
Qed.

(** A call that gets past the assertion from a well-formed state goes
    through: it returns [maxSize], and between taking and releasing the
    lock it stores the accepted frames and nothing else of the input. *)
Lemma writeData_passes (fuel : nat) (now : Z) (data : list Byte.byte) (maxSize : Z)
  (s : Detector) :
  wf s -> 0 <= maxSize < 2 ^ 63 ->
  Q_ASSERT (Z.rem maxSize bytesPerFrame =? 0) = true ->
  (Z.to_nat (maxSize / bytesPerFrame) <= fuel)%nat ->
  let s1 := periodCheck now s in
  let accepted := framesAccepted maxSize s1 in
  exists s' t,
    writeData fuel now data maxSize s =
    Ok (maxSize, s',
        EvLock :: (if accepted <? requestedFrames maxSize
                   then [EvDropped (requestedFrames maxSize - accepted) (kin s1) (m_ns s1)]
                   else []) ++ t ++ [EvUnlock]) /\
    advance s1 s' t /\ storedFrames t = accepted /\ storesFrom 0 t.
Proof.
  intros Hwf Hmax Hpass Hfuel s1 accepted.
  assert (Hwf1 : wf s1) by (apply periodCheck_wf; exact Hwf).
  assert (Hreq : requestedFrames maxSize = maxSize / bytesPerFrame)
    by (apply requestedFrames_exact; exact Hmax).
  assert (Hq : 0 <= maxSize / bytesPerFrame) by (apply Z.div_pos; lia).
  assert (Hqb : maxSize / bytesPerFrame * bytesPerFrame <= maxSize).
  { rewrite Z.mul_comm. apply Z.mul_div_le. lia. }
  assert (Hacc : 0 <= accepted <= maxSize / bytesPerFrame).
  { unfold accepted, framesAccepted. rewrite Hreq, framesAcceptable_exact by exact Hwf1.
    destruct Hwf1 as (_ & _ & ? & _). nia. }
  destruct (writeLoop_advance NDOWN_pos data accepted fuel accepted s1)
    as (s' & t & Hloop & Hadv & Hst & Hoff); try assumption; try lia; [nia |].
  exists s', t. unfold writeData. fold s1. rewrite Hpass.
  fold accepted. rewrite Hloop. cbn.
  replace ((accepted - accepted) * bytesPerFrame) with 0 in Hoff by lia.
  split; [reflexivity |]. split; [exact Hadv |]. split; assumption.
Qed.

(** A call with whole frames gets past the assertion in either build. *)
Lemma writeData_run (fuel : nat) (now : Z) (data : list Byte.byte) (maxSize : Z)
  (s : Detector) :
  wf s -> 0 <= maxSize < 2 ^ 63 -> Z.rem maxSize bytesPerFrame = 0 ->
  (Z.to_nat (maxSize / bytesPerFrame) <= fuel)%nat ->
  let s1 := periodCheck now s in
  let accepted := framesAccepted maxSize s1 in
  exists s' t,
    writeData fuel now data maxSize s =
    Ok (maxSize, s',
        EvLock :: (if accepted <? requestedFrames maxSize
                   then [EvDropped (requestedFrames maxSize - accepted) (kin s1) (m_ns s1)]
                   else []) ++ t ++ [EvUnlock]) /\
    advance s1 s' t /\ storedFrames t = accepted /\ storesFrom 0 t.
Proof.
  intros Hwf Hmax Hrem Hfuel.
  apply writeData_passes; try assumption.
  unfold Q_ASSERT. rewrite Hrem. reflexivity.
Qed.

(** The first [store] of a call lands at the window position the period
    check leaves, its first write to [d2] at the [kin] it leaves. *)
Lemma writeData_first (fuel : nat) (now : Z) (data : list Byte.byte) (maxSize : Z)
  (s : Detector) :
  wf s ->
  forall r s' t,
    writeData fuel now data maxSize s = Ok (r, s', t) ->
    (firstStorePos t = None \/ firstStorePos t = Some (m_bufferPos (periodCheck now s))) /\
    (head (writtenIndices t) = None \/
     head (writtenIndices t) = Some (kin (periodCheck now s))).
Proof.
  intros Hwf r s' t Hrun. unfold writeData in Hrun.
  destruct (Q_ASSERT _); [| discriminate].
  destruct (writeLoop fuel data _ _ _) as [[s2 t2] |] eqn:Hloop; [| discriminate].
  apply writeLoop_first in Hloop;
    [| exact NDOWN_pos | apply periodCheck_wf; exact Hwf |].
  - destruct Hloop as [Hst Hwr].
    assert (Hfs : firstStorePos (t2 ++ [EvUnlock]) = firstStorePos t2).
    { rewrite firstStorePos_app. destruct (firstStorePos t2); reflexivity. }
    assert (Hwi : writtenIndices (t2 ++ [EvUnlock]) = writtenIndices t2).
    { rewrite writtenIndices_app. apply app_nil_r. }
    destruct (_ <? _); cbn in Hrun; injection Hrun as <- <- <-; cbn;
      rewrite Hfs, Hwi; (split; [exact Hst |]);
      (destruct Hwr as [Hhd | [Hnil _]]; [right; exact Hhd | left; rewrite Hnil; reflexivity]).
  - unfold framesAccepted, framesAcceptable, u64, wrap.
    pose proof (Z.mod_pos_bound (u64 (d2_size (periodCheck now s) - kin (periodCheck now s))
                                 * NDOWN) (2 ^ 64)).
    assert (0 <= requestedFrames maxSize).
    { unfold requestedFrames. apply Z.div_pos; [| lia].
      unfold u64, wrap. apply Z.mod_pos_bound. lia. }
    unfold u64, wrap in *. lia.
Qed.

(** A call whose frames are all taken by one round consists of that
    round, between taking and releasing the lock. *)
Lemma writeData_single_round (fuel : nat) (now : Z) (data : list Byte.byte) (n : Z)
  (s s' : Detector) (t : list event) :
  wfWindow (periodCheck now s) -> - 2 ^ 31 <= kin (periodCheck now s) ->
  0 < n -> n * bytesPerFrame < 2 ^ 63 ->
  n <= (d2_size (periodCheck now s) - kin (periodCheck now s)) * NDOWN ->
  writeRound data n n (periodCheck now s) = Ok (n, s', t) ->
  writeData (S fuel) now data (n * bytesPerFrame) s =
  Ok (n * bytesPerFrame, s', EvLock :: t ++ [EvUnlock]).
Proof.
  intros Hwf Hint Hn Hmax Hroom Hround. unfold writeData.
  rewrite Z.rem_mul by lia. cbn [Z.eqb Q_ASSERT orb].
  assert (Hacc : framesAccepted (n * bytesPerFrame) (periodCheck now s) = n).
  { unfold framesAccepted.
    rewrite requestedFrames_exact, framesAcceptable_room, Z.div_mul
      by (assumption || nia).
    lia. }
  rewrite Hacc, requestedFrames_exact, Z.div_mul, Z.ltb_irrefl by nia.
  rewrite (writeLoop_last_round data n n fuel _ s' t) by (lia || assumption).
  reflexivity.
Qed.

(** A call emits [framesWritten] once for each fill of the window by the
    frames it accepts; while [kin] stays below the bound of the check the
    signals carry [kin + m_samplesPerFFT], [kin + 2 * m_samplesPerFFT],
    ... and [d2] is written at the consecutive indices from [kin] on. *)
Lemma writeData_fills (fuel : nat) (now : Z) (data : list Byte.byte) (k : Z)
  (s : Detector) :
  wf (periodCheck now s) ->
  0 <= k -> k * bytesPerFrame < 2 ^ 63 -> (Z.to_nat k <= fuel)%nat ->
  let s1 := periodCheck now s in
  let a := Z.min k ((d2_size s1 - kin s1) * NDOWN) in
  let W := m_samplesPerFFT s1 * NDOWN in
  let m := (m_bufferPos s1 + a) / W in
  exists s' t,
    writeData fuel now data (k * bytesPerFrame) s = Ok (k * bytesPerFrame, s', t) /\
    Z.of_nat (length (emissions t)) = m /\
    m_bufferPos s' = (m_bufferPos s1 + a) mod W /\
    (kin s1 + m * m_samplesPerFFT s1 < d2_size s1 \/ m = 0 ->
     kin s' = kin s1 + m * m_samplesPerFFT s1 /\
     emissions t = (fun j => kin s1 + j * m_samplesPerFFT s1) <$> seqZ 1 m /\
     writtenIndices t = seqZ (kin s1) (m * m_samplesPerFFT s1)).
Proof.
  intros Hwf1 Hk Hmax Hfuel s1 a W m. fold s1 in Hwf1.
  assert (Hacc : framesAccepted (k * bytesPerFrame) s1 = a).
  { unfold framesAccepted.
    rewrite requestedFrames_exact, framesAcceptable_exact, Z.div_mul by (assumption || nia).
    reflexivity. }
  assert (Ha : 0 <= a <= k).
  { unfold a. destruct Hwf1 as (_ & _ & ? & _). nia. }
  destruct (writeLoop_fills NDOWN_pos data a fuel a s1 Hwf1)
    as (s' & t & Hloop & Hcount & Hpos & Hvals); [nia | lia |].
  fold W m in Hcount, Hpos, Hvals.
  unfold writeData. fold s1. rewrite Z.rem_mul by lia. cbn [Z.eqb Q_ASSERT orb].
  rewrite Hacc, Hloop. cbn.
  assert (Hem : forall dbg, emissions dbg = [] -> writtenIndices dbg = [] ->
                  emissions (dbg ++ t ++ [EvUnlock]) = emissions t /\
                  writtenIndices (dbg ++ t ++ [EvUnlock]) = writtenIndices t).
  { intros dbg He Hw.
    rewrite !emissions_app, !writtenIndices_app, He, Hw. cbn.
    rewrite !app_nil_r. split; reflexivity. }
  eexists _, _. split; [reflexivity |]. cbn.
  match goal with |- context [?dbg ++ t ++ [EvUnlock]] =>
    destruct (Hem dbg) as [-> ->]; [destruct (_ <? _); reflexivity .. |]
  end.
  split; [exact Hcount |]. split; [exact Hpos | exact Hvals].
Qed.

End WriteFacts.

(** ** The properties of the pipeline *)

Section Properties.

Context {P : Platform}.
Hypothesis NDOWN_pos : 0 < NDOWN.
Hypothesis bytesPerFrame_pos : 0 < bytesPerFrame.

(** C1.  A call of [writeData] with [k] whole frames accepts
    [min (k, (capacity - kin) * NDOWN)] of them, [kin] being the one the
    period check leaves: exactly that many frames are handed to [store],
    taken in order from the start of the input, the others are never
    stored (a diagnostic line reports them), and the call returns the
    requested byte length all the same. *)
Theorem write_accepts_min (fuel : nat) (now : Z) (data : list Byte.byte) (k : Z)
  (s : Detector) :
  wf s -> 0 <= k -> k * bytesPerFrame < 2 ^ 63 -> (Z.to_nat k <= fuel)%nat ->
  let maxSize := k * bytesPerFrame in
  let s1 := periodCheck now s in
  let accepted := Z.min k ((d2_size s1 - kin s1) * NDOWN) in
  framesAccepted maxSize s1 = accepted /\
  exists s' t,
    writeData fuel now data maxSize s = Ok (maxSize, s', t) /\
    storedFrames t = accepted /\
    storesFrom 0 t /\
    (accepted < k -> EvDropped (k - accepted) (kin s1) (m_ns s1) ∈ t).
Proof.
  intros Hwf Hk Hmax Hfuel maxSize s1 accepted.
  assert (Hdiv : maxSize / bytesPerFrame = k) by (apply Z.div_mul; lia).
  assert (Hreq : requestedFrames maxSize = k).
  { unfold maxSize in *. rewrite requestedFrames_exact by nia. exact Hdiv. }
  assert (Hacc : framesAccepted maxSize s1 = accepted).
  { unfold framesAccepted. rewrite Hreq, framesAcceptable_exact;
      [reflexivity | assumption | apply periodCheck_wf; assumption]. }
  split; [exact Hacc |].
  destruct (writeData_run NDOWN_pos bytesPerFrame_pos fuel now data maxSize s)
    as (s' & t & Hrun & _ & Hst & Hoff); try assumption.
  - unfold maxSize. nia.
  - unfold maxSize. apply Z.rem_mul. lia.
  - rewrite Hdiv. exact Hfuel.
  - fold s1 in Hrun, Hst. rewrite Hacc, Hreq in Hrun. rewrite Hacc in Hst.
    eexists _, _. split; [exact Hrun |].
    destruct (Z.ltb_spec accepted k) as [Hlt | Hge]; cbn.
    + rewrite storedFrames_app. cbn. split; [lia |]. split.
      * apply (storesFrom_app t [EvUnlock]); [exact Hoff | exact I].
      * intros _. apply list_elem_of_further, list_elem_of_here.
    + rewrite storedFrames_app. cbn. split; [lia |]. split.
      * apply (storesFrom_app t [EvUnlock]); [exact Hoff | exact I].
      * lia.
Qed.

(** C6, as the code has it.  The framing check is a [Q_ASSERT], so what
    a torn length does depends on the build.  A length
    [k * bytesPerFrame] goes through in either build.  Built without
    [QT_NO_DEBUG], any other length trips the assertion, and the assertion
    is the only way the call fails.  Built with [QT_NO_DEBUG] the call
    never fails: a torn length counts as [maxSize / bytesPerFrame] whole
    frames, the accepted ones are stored in order from the start of the
    input, and [maxSize] is returned. *)
Theorem write_fails_iff_torn (fuel : nat) (now : Z) (data : list Byte.byte)
  (maxSize : Z) (s : Detector) :
  wf s -> 0 <= maxSize < 2 ^ 63 -> (Z.to_nat (maxSize / bytesPerFrame) <= fuel)%nat ->
  ((exists k, maxSize = k * bytesPerFrame) ->
   exists s' t, writeData fuel now data maxSize s = Ok (maxSize, s', t)) /\
  (QT_NO_DEBUG = false ->
   (~ (exists k, maxSize = k * bytesPerFrame) ->
    writeData fuel now data maxSize s = Err AssertionFailure) /\
   (forall e, writeData fuel now data maxSize s = Err e ->
              e = AssertionFailure /\ ~ (exists k, maxSize = k * bytesPerFrame))) /\
  (QT_NO_DEBUG = true ->
   let s1 := periodCheck now s in
   let accepted := Z.min (maxSize / bytesPerFrame) ((d2_size s1 - kin s1) * NDOWN) in
   exists s' t,
     writeData fuel now data maxSize s = Ok (maxSize, s', t) /\
     storedFrames t = accepted /\
     storesFrom 0 t).
Proof.
  intros Hwf Hmax Hfuel.
  assert (Hiff : Z.rem maxSize bytesPerFrame = 0 <-> exists k, maxSize = k * bytesPerFrame).
  { rewrite Z.rem_divide by lia. reflexivity. }
  assert (Hgood : Z.rem maxSize bytesPerFrame = 0 ->
                  exists s' t, writeData fuel now data maxSize s = Ok (maxSize, s', t)).
  { intros Hrem.
    destruct (writeData_run NDOWN_pos bytesPerFrame_pos fuel now data maxSize s)
      as (s' & t & Hrun & _); try assumption.
    eexists _, _. exact Hrun. }
  split; [| split].
  - intros Hk. apply Hgood, Hiff, Hk.
  - intros Hdebug.
    assert (Hbad : Z.rem maxSize bytesPerFrame <> 0 ->
                   writeData fuel now data maxSize s = Err AssertionFailure).
    { intros Hrem. unfold writeData, Q_ASSERT. rewrite Hdebug.
      destruct (Z.eqb_spec (Z.rem maxSize bytesPerFrame) 0) as [Hz | _];
        [contradiction | reflexivity]. }
    split.
    + intros Hk. apply Hbad. rewrite Hiff. exact Hk.
    + intros e He.
      destruct (Z.eq_dec (Z.rem maxSize bytesPerFrame) 0) as [Hz | Hnz].
      * destruct (Hgood Hz) as (s' & t & Hrun). congruence.
      * rewrite (Hbad Hnz) in He. split; [congruence |]. rewrite <- Hiff. exact Hnz.
  - intros Hrelease s1 accepted.
    assert (Hwf1 : wf s1) by (apply periodCheck_wf; assumption).
    assert (Hreq : requestedFrames maxSize = maxSize / bytesPerFrame)
      by (apply requestedFrames_exact; exact Hmax).
    assert (Hacc : framesAccepted maxSize s1 = accepted).
    { unfold framesAccepted. rewrite Hreq, framesAcceptable_exact;
        [reflexivity | assumption | exact Hwf1]. }
    destruct (writeData_passes NDOWN_pos bytesPerFrame_pos fuel now data maxSize s)
      as (s' & t & Hrun & _ & Hst & Hoff); try assumption.
    + unfold Q_ASSERT. rewrite Hrelease. apply orb_true_r.
    + fold s1 in Hrun, Hst. rewrite Hacc in Hrun, Hst.
      eexists _, _. split; [exact Hrun |].
      destruct (accepted <? requestedFrames maxSize); cbn;
        rewrite storedFrames_app; cbn;
        (split; [lia | apply (storesFrom_app t [EvUnlock]); [exact Hoff | exact I]]).
Qed.

(** C6 as stated does not hold in a release build.  Seven bytes are
    three two-byte frames and one byte more; with [Q_ASSERT] compiled out
    the call stores the three frames and returns 7. *)
Lemma write_accepts_torn_length :
  match writeData (P:=demoRelease) 3 0 [] 7 releaseState with
  | Ok (r, _, t) => r = 7 /\ storedFrames t = 3
  | Err _ => False
  end.
Proof. vm_compute. split; reflexivity. Qed.

(** C2.  A round of the loop of [writeData] in which the working window
    becomes exactly full while [0 <= kin < capacity - m_samplesPerFFT]
    writes exactly [m_samplesPerFFT] decimated samples to [d2] from index
    [kin] on, advances [kin] by [m_samplesPerFFT], emits [framesWritten]
    exactly once, with the new [kin], and puts the window position back to
    0.  A call whose frames just complete the window is that one round
    between taking and releasing the lock; and a call whose accepted
    frames fill the window [m] times, the check passing each time, writes
    the [m * m_samplesPerFFT] slots of [d2] from [kin] on and emits the
    [m] successive values of [kin]. *)
Theorem window_full_drains (data : list Byte.byte) (acc rem : Z) (s : Detector) :
  wf s ->
  m_samplesPerFFT s * NDOWN - m_bufferPos s <= rem ->
  0 <= kin s < d2_size s - m_samplesPerFFT s ->
  let n := m_samplesPerFFT s * NDOWN - m_bufferPos s in
  let off := byteOffset acc rem in
  let ys := drainBlock s (windowAfterStore data off n s) in
  exists s',
    let t := EvStore off n (m_bufferPos s) :: d2Writes (kin s) ys
               ++ [EvFramesWritten (kin s')] in
    writeRound data acc rem s = Ok (n, s', t) /\
    Z.of_nat (length ys) = m_samplesPerFFT s /\
    d2 s' = take (Z.to_nat (kin s)) (d2 s) ++ ys
              ++ drop (Z.to_nat (kin s + m_samplesPerFFT s)) (d2 s) /\
    kin s' = kin s + m_samplesPerFFT s /\
    emissions t = [kin s'] /\
    m_bufferPos s' = 0 /\
    (forall fuel now s0,
        periodCheck now s0 = s -> acc = n -> rem = n -> n * bytesPerFrame < 2 ^ 63 ->
        writeData (S fuel) now data (n * bytesPerFrame) s0 =
        Ok (n * bytesPerFrame, s', EvLock :: t ++ [EvUnlock])) /\
    (forall fuel now s0 k,
        periodCheck now s0 = s ->
        0 <= k -> k * bytesPerFrame < 2 ^ 63 -> (Z.to_nat k <= fuel)%nat ->
        let a := Z.min k ((d2_size s - kin s) * NDOWN) in
        let m := (m_bufferPos s + a) / (m_samplesPerFFT s * NDOWN) in
        kin s + m * m_samplesPerFFT s < d2_size s ->
        exists s'' t'',
          writeData fuel now data (k * bytesPerFrame) s0
          = Ok (k * bytesPerFrame, s'', t'') /\
          kin s'' = kin s + m * m_samplesPerFFT s /\
          writtenIndices t'' = seqZ (kin s) (m * m_samplesPerFFT s) /\
          emissions t'' = (fun j => kin s + j * m_samplesPerFFT s) <$> seqZ 1 m /\
          m_bufferPos s''
          = (m_bufferPos s + a) mod (m_samplesPerFFT s * NDOWN)).
Proof.
  intros Hwf Hfill Hk n off ys.
  pose proof Hwf as (Hsz & Hcap & Hkin & Hspf & Hfit & Hlen & Hpos).
  assert (Hround := writeRound_drain NDOWN_pos data acc rem s Hwf Hfill).
  cbv zeta in Hround. rewrite <- Hsz in Hround. specialize (Hround Hk).
  fold n off in Hround. fold (drainBlock s (windowAfterStore data off n s)) in Hround.
  fold ys in Hround.
  assert (Hys : Z.of_nat (length ys) = m_samplesPerFFT s).
  { unfold ys, drainBlock. rewrite filterRun_length. lia. }
  eexists. cbv zeta. split; [exact Hround |]. cbn [kin d2 m_bufferPos].
  split; [exact Hys |].
  split; [| split; [reflexivity | split; [| split; [reflexivity | split]]]].
  - rewrite list_inserts_splice by (unfold d2_size in *; lia).
    do 3 f_equal. lia.
  - cbn. rewrite emissions_app, emissions_d2Writes. reflexivity.
  - intros fuel now s0 Hs0 Hacc Hrem Hmax. subst acc rem.
    apply writeData_single_round; rewrite ?Hs0;
      try assumption; try lia; try (apply wf_wfWindow; assumption).
    unfold n in *. nia.
  - intros fuel now s0 k Hs0 Hk0 Hmax Hfuel Hroom.
    destruct (writeData_fills NDOWN_pos bytesPerFrame_pos fuel now data k s0)
      as (s'' & t'' & Hrun & _ & Hp & Hvals); rewrite ?Hs0 in *; try assumption.
    destruct Hvals as (Hk'' & He'' & Hw''); [left; exact Hroom |].
    exists s'', t''. repeat (split; [assumption |]). assumption.
Qed.

(** C10.  Every round in which the working window becomes exactly full
    emits [framesWritten] exactly once and puts the window position back
    to 0, whether or not samples were produced.  When the bounds check
    fails ([kin >= capacity - m_samplesPerFFT] or [kin < 0]) the signal
    carries the unchanged [kin], nothing is written to [d2] and the block
    is lost; a call whose frames just complete the window is that one
    round between taking and releasing the lock.  Whatever the checks do,
    a call emits as many signals as its accepted frames fill the
    window. *)
Theorem window_full_discards (data : list Byte.byte) (acc rem : Z) (s : Detector) :
  wfWindow s ->
  m_samplesPerFFT s * NDOWN - m_bufferPos s <= rem ->
  let n := m_samplesPerFFT s * NDOWN - m_bufferPos s in
  let off := byteOffset acc rem in
  (exists s' t,
      writeRound data acc rem s = Ok (n, s', t) /\
      emissions t = [kin s'] /\ m_bufferPos s' = 0) /\
  (kin s >= d2_size s - m_samplesPerFFT s \/ kin s < 0 ->
   exists s',
     let t := [EvStore off n (m_bufferPos s); EvFramesWritten (kin s)] in
     writeRound data acc rem s = Ok (n, s', t) /\
     kin s' = kin s /\ d2 s' = d2 s /\ writtenIndices t = [] /\
     m_bufferPos s' = 0 /\
     (forall fuel now s0,
         periodCheck now s0 = s -> acc = n -> rem = n -> n * bytesPerFrame < 2 ^ 63 ->
         - 2 ^ 31 <= kin s -> n <= (d2_size s - kin s) * NDOWN ->
         writeData (S fuel) now data (n * bytesPerFrame) s0 =
         Ok (n * bytesPerFrame, s', EvLock :: t ++ [EvUnlock]))) /\
  (forall fuel now s0 k,
      periodCheck now s0 = s -> 0 <= kin s <= d2_size s ->
      0 <= k -> k * bytesPerFrame < 2 ^ 63 -> (Z.to_nat k <= fuel)%nat ->
      let a := Z.min k ((d2_size s - kin s) * NDOWN) in
      exists s'' t'',
        writeData fuel now data (k * bytesPerFrame) s0
        = Ok (k * bytesPerFrame, s'', t'') /\
        Z.of_nat (length (emissions t''))
        = (m_bufferPos s + a) / (m_samplesPerFFT s * NDOWN) /\
        m_bufferPos s''
        = (m_bufferPos s + a) mod (m_samplesPerFFT s * NDOWN)).
Proof.
  intros Hwf Hfill n off.
  pose proof Hwf as (Hsz & Hcap & Hspf & Hfit & Hlen & Hpos).
  assert (Hdisc := writeRound_discard NDOWN_pos data acc rem s Hwf Hfill).
  cbv zeta in Hdisc. rewrite <- Hsz in Hdisc. fold n off in Hdisc.
  split; [| split].
  - destruct (Z_le_dec 0 (kin s)) as [H0 | H0];
      [destruct (Z_lt_dec (kin s) (d2_size s - m_samplesPerFFT s)) as [Hlt | Hge] |].
    + assert (Hwf' : wf s) by (unfold wf; repeat split; try assumption; lia).
      assert (Hdrain := writeRound_drain NDOWN_pos data acc rem s Hwf' Hfill).
      cbv zeta in Hdrain. rewrite <- Hsz in Hdrain. fold n off in Hdrain.
      eexists _, _. split; [apply Hdrain; lia |]. cbn.
      rewrite emissions_app, emissions_d2Writes. split; reflexivity.
    + eexists _, _. split; [apply Hdisc; lia |]. cbn. split; reflexivity.
    + eexists _, _. split; [apply Hdisc; lia |]. cbn. split; reflexivity.
  - intros Hk. eexists. cbv zeta. split; [apply Hdisc; lia |].
    cbn [kin d2 m_bufferPos].
    do 4 (split; [reflexivity |]).
    intros fuel now s0 Hs0 Hacc Hrem Hmax Hint Hroom. subst acc rem.
    apply writeData_single_round; rewrite ?Hs0; try assumption; try lia.
    apply Hdisc. lia.
  - intros fuel now s0 k Hs0 Hkin Hk0 Hmax Hfuel a.
    assert (Hwf' : wf s) by (unfold wf; repeat split; try assumption; lia).
    destruct (writeData_fills NDOWN_pos bytesPerFrame_pos fuel now data k s0)
      as (s'' & t'' & Hrun & Hcount & Hp & _); rewrite ?Hs0 in *; try assumption.
    exists s'', t''. split; [exact Hrun |]. split; assumption.
Qed.

(** C5.  [resetBufferPosition] (resynchronize) sets [kin] to
    [min (floor (msIntoPeriod * frameRate / 1000), capacity)], as long as
    the product fits the 32-bit arithmetic of the code, puts the window
    position back to 0 and rotates [d2] without losing any entry: the
    element at index [i] moves to index [(i + delta) mod capacity] for
    [delta = newKin - oldKin], so the one at the old [kin] lands at the new
    [kin]; a negative [delta] is a left rotation by [|delta|], a positive
    one a right rotation by [delta]. *)
Theorem resynchronize_rotates (now now' : Z) (s : Detector) :
  d2_size s < 2 ^ 31 -> 0 <= kin s <= d2_size s ->
  0 <= now -> 0 < m_period s -> 0 <= m_frameRate s ->
  m_period s * 1000 < 2 ^ 32 -> m_period s * 1000 * m_frameRate s <= 2 ^ 32 ->
  let msIntoPeriod := (now mod 86400000) mod (m_period s * 1000) in
  let newKin := Z.min (msIntoPeriod * m_frameRate s / 1000) (d2_size s) in
  let delta := newKin - kin s in
  exists s',
    resetBufferPosition now now' s = Ok (s', [EvLock; EvUnlock]) /\
    kin s' = newKin /\
    m_bufferPos s' = 0 /\
    d2 s' ≡ₚ d2 s /\
    (forall i, 0 <= i < d2_size s ->
               d2 s' !! Z.to_nat ((i + delta) mod d2_size s) = d2 s !! Z.to_nat i) /\
    (kin s < d2_size s -> newKin < d2_size s ->
     d2 s' !! Z.to_nat newKin = d2 s !! Z.to_nat (kin s)) /\
    (delta < 0 ->
     d2 s' = drop (Z.to_nat (- delta)) (d2 s) ++ take (Z.to_nat (- delta)) (d2 s)) /\
    (0 <= delta ->
     d2 s' = drop (Z.to_nat (d2_size s - delta)) (d2 s)
               ++ take (Z.to_nat (d2_size s - delta)) (d2 s)).
Proof.
  intros Hcap Hkin Hnow Hper Hrate Hp32 Hprod msIntoPeriod newKin delta.
  destruct (resetBufferPosition_run now now' s Hcap Hkin) as [Hnew Hrun].
  assert (Hms : msInPeriod now s = msIntoPeriod).
  { unfold msInPeriod, msIntoPeriod.
    rewrite (u32_small (m_period s * 1000)) by lia.
    pose proof (Z.mod_pos_bound now 86400000) as Hday.
    pose proof (Z.mod_pos_bound (now mod 86400000) (m_period s * 1000)) as Hin.
    rewrite (Z.rem_mod_nonneg now) by lia.
    rewrite Z.rem_mod_nonneg by lia.
    apply u32_small. lia. }
  assert (Hmsr : 0 <= msIntoPeriod < m_period s * 1000).
  { apply Z.mod_pos_bound. lia. }
  rewrite Hms, (u32_small (msIntoPeriod * m_frameRate s)) in Hrun, Hnew by nia.
  fold newKin in Hrun, Hnew. fold delta in Hrun.
  assert (Hmove : forall d2', d2' = (if delta <? 0
                    then std_rotate (Z.to_nat (kin s - newKin)) (d2 s)
                    else std_rotate_rev (Z.to_nat (newKin - kin s)) (d2 s)) ->
            forall i, 0 <= i < d2_size s ->
              d2' !! Z.to_nat ((i + delta) mod d2_size s) = d2 s !! Z.to_nat i).
  { intros d2' -> i Hi. unfold d2_size in *.
    destruct (Z.ltb_spec delta 0).
    - rewrite <- (std_rotate_moves (Z.to_nat (kin s - newKin)) (d2 s) i) by lia.
      do 3 f_equal. unfold delta. lia.
    - rewrite std_rotate_rev_eq by lia.
      rewrite <- (std_rotate_moves (length (d2 s) - Z.to_nat (newKin - kin s)) (d2 s) i) by lia.
      do 2 f_equal.
      rewrite Nat2Z.inj_sub, Z2Nat.id by lia.
      replace (i - (Z.of_nat (length (d2 s)) - (newKin - kin s)))
        with (i + delta + (-1) * Z.of_nat (length (d2 s))) by (unfold delta; lia).
      symmetry. apply Z.mod_add. lia. }
  eexists. split; [exact Hrun |]. cbn [kin m_bufferPos d2].
  split; [reflexivity |]. split; [reflexivity |].
  split; [| split; [| split; [| split]]].
  - destruct (delta <? 0); [apply std_rotate_perm |].
    unfold std_rotate_rev. rewrite reverse_Permutation, std_rotate_perm.
    apply reverse_Permutation.
  - apply Hmove. reflexivity.
  - intros Hold Hlt. rewrite <- (Hmove _ eq_refl (kin s)) by lia.
    do 2 f_equal. unfold delta.
    replace (kin s + (newKin - kin s)) with newKin by lia.
    symmetry. apply Z.mod_small. lia.
  - intros Hneg. destruct (Z.ltb_spec delta 0); [| lia].
    unfold std_rotate. f_equal; f_equal; unfold delta; lia.
  - intros Hpos. destruct (Z.ltb_spec delta 0); [lia |].
    unfold d2_size in *. rewrite std_rotate_rev_eq by lia. unfold std_rotate.
    f_equal; f_equal; unfold delta; lia.
Qed.

(** C7.  [resetBufferContent] (clearContent) turns every entry of [d2]
    into zero and leaves [kin] and the window position as they were. *)
Theorem clearContent_zero_fills (s : Detector) :
  let s' := fst (resetBufferContent s) in
  d2 s' = replicate (length (d2 s)) 0 /\
  (forall i, (i < length (d2 s))%nat -> d2 s' !! i = Some 0) /\
  Forall (fun x => x = 0) (d2 s') /\
  kin s' = kin s /\
  m_bufferPos s' = m_bufferPos s.
Proof.
  cbn. split; [reflexivity |]. split; [| split; [| split; reflexivity]].
  - intros i Hi. apply lookup_replicate_2. exact Hi.
  - apply Forall_forall. intros x Hx. apply elem_of_replicate in Hx. tauto.
Qed.

(** C8, as the code has it.  From a well-formed state [reset] goes
    through and returns [isOpen ()]; the window position is 0 afterwards.
    Built with the ring buffer it zero-fills [d2] and sets [kin] as
    [resetBufferPosition] does, from the time into the period; built
    without, it sets [kin] to 0 and leaves the content of [d2] alone. *)
Theorem reset_resynchronizes (now now' : Z) (s : Detector) :
  wf s ->
  exists s' t,
    reset now now' s = Ok (isOpen s, s', t) /\
    m_bufferPos s' = 0 /\
    0 <= kin s' <= d2_size s' /\
    (JS8_RING_BUFFER = true ->
     kin s' = Z.min (u32 (msInPeriod now s * m_frameRate s) / 1000) (d2_size s) /\
     d2 s' = replicate (length (d2 s)) 0) /\
    (JS8_RING_BUFFER = false -> kin s' = 0 /\ d2 s' = d2 s).
Proof.
  intros (Hsz & Hcap & Hkin & _).
  destruct (resetBufferPosition_run now now' s Hcap Hkin) as [Hnew Hrun].
  unfold reset, clear.
  destruct JS8_RING_BUFFER.
  - rewrite Hrun. cbn.
    eexists _, _. split; [reflexivity |]. cbn.
    unfold d2_size in *. cbn. rewrite length_replicate.
    assert (Hlen : forall b : bool, length (if b
              then std_rotate (Z.to_nat (kin s - Z.min (u32 (msInPeriod now s * m_frameRate s)
                                                       / 1000) (Z.of_nat (length (d2 s))))) (d2 s)
              else std_rotate_rev (Z.to_nat (Z.min (u32 (msInPeriod now s * m_frameRate s)
                                                       / 1000) (Z.of_nat (length (d2 s))) - kin s))
                     (d2 s)) = length (d2 s)).
    { intros []; [| unfold std_rotate_rev; rewrite length_reverse];
        rewrite std_rotate_length, ?length_reverse; reflexivity. }
    rewrite Hlen.
    split; [reflexivity |]. split; [lia |].
    split; [intros _; split; reflexivity | discriminate].
  - cbn. eexists _, _. split; [reflexivity |]. cbn.
    split; [reflexivity |]. split; [unfold d2_size in *; cbn; lia |].
    split; [discriminate | intros _; split; reflexivity].
Qed.

(** C8 as stated does not hold.  With the ring buffer, a reset one second
    into the period leaves [kin] at 12000 although it was 0 before.
    Without the ring buffer, [d2] is not cleared. *)
Lemma reset_not_idle :
  match reset (P:=demo) 1000 1000 (demoState 0 0 0) with
  | Ok (_, s', _) => kin s' = 12000
  | Err _ => False
  end /\
  match reset (P:=demoLinear) 1000 1000 staleState with
  | Ok (_, s', _) => d2 s' !! 0%nat = Some 7
  | Err _ => False
  end.
Proof. split; vm_compute; reflexivity. Qed.

(** C3, as the code has it.  Well-formedness is an invariant of the four
    operations, and with it [0 <= kin <= capacity]; the size of [d2] never
    changes; every index of [d2] that [writeData] writes is below the
    capacity; and [kin] does not decrease in a [writeData] that detects no
    period wraparound, nor in [resetBufferContent].  The other two
    operations set [kin] without looking at its old value, so they may
    lower it: [resetBufferPosition] puts it where the clock is, and so
    does [reset] in the build with the ring buffer; in the build without,
    [reset] puts it to 0. *)
Theorem kin_stays_within_capacity (s : Detector) :
  wf s ->
  (forall fuel now data k,
      0 <= k -> k * bytesPerFrame < 2 ^ 63 -> (Z.to_nat k <= fuel)%nat ->
      exists s' t,
        writeData fuel now data (k * bytesPerFrame) s = Ok (k * bytesPerFrame, s', t) /\
        wf s' /\ 0 <= kin s' <= d2_size s' /\ d2_size s' = d2_size s /\
        Forall (fun i => 0 <= i < d2_size s) (writtenIndices t) /\
        (m_ns s <= i32 (secondInPeriod now s) -> kin s <= kin s')) /\
  (forall now now',
      exists s' t,
        resetBufferPosition now now' s = Ok (s', t) /\
        wf s' /\ 0 <= kin s' <= d2_size s' /\ d2_size s' = d2_size s /\
        writtenIndices t = [] /\
        kin s' = Z.min (u32 (msInPeriod now s * m_frameRate s) / 1000) (d2_size s)) /\
  (let s' := fst (resetBufferContent s) in
   wf s' /\ 0 <= kin s' <= d2_size s' /\ d2_size s' = d2_size s /\ kin s' = kin s) /\
  (forall now now',
      exists r s' t,
        reset now now' s = Ok (r, s', t) /\
        wf s' /\ 0 <= kin s' <= d2_size s' /\ d2_size s' = d2_size s /\
        writtenIndices t = [] /\
        kin s' = (if JS8_RING_BUFFER
                  then Z.min (u32 (msInPeriod now s * m_frameRate s) / 1000) (d2_size s)
                  else 0)).
Proof.
  intros Hwf.
  pose proof Hwf as (Hsz & Hcap & Hkin & Hspf & Hfit & Hlen & Hpos).
  assert (Hrot : forall (b : bool) (m1 m2 : nat),
             length (if b then std_rotate m1 (d2 s) else std_rotate_rev m2 (d2 s))
             = length (d2 s)).
  { intros [] m1 m2; [| unfold std_rotate_rev; rewrite length_reverse];
      rewrite std_rotate_length, ?length_reverse; reflexivity. }
  assert (Hresync : forall now now',
             exists s' t,
               resetBufferPosition now now' s = Ok (s', t) /\
               wf s' /\ 0 <= kin s' <= d2_size s' /\ d2_size s' = d2_size s /\
               writtenIndices t = [] /\ t = [EvLock; EvUnlock] /\
               kin s' = Z.min (u32 (msInPeriod now s * m_frameRate s) / 1000)
                          (d2_size s)).
  { intros now now'.
    destruct (resetBufferPosition_run now now' s Hcap Hkin) as [Hnew Hrun].
    eexists _, _. split; [exact Hrun |].
    unfold wf, d2_size in *. cbn. rewrite Hrot.
    repeat split; try lia; reflexivity. }
  split; [| split; [| split]].
  - intros fuel now data k Hk Hmax Hfuel.
    destruct (writeData_run NDOWN_pos bytesPerFrame_pos fuel now data (k * bytesPerFrame) s)
      as (s' & t & Hrun & Hadv & _); try assumption.
    + nia.
    + apply Z.rem_mul. lia.
    + rewrite Z.div_mul by lia. exact Hfuel.
    + destruct Hadv as (Hwf' & Hmono & _ & _ & _ & _ & _ & Hidx & _).
      eexists _, _. split; [exact Hrun |].
      split; [exact Hwf' |].
      pose proof Hwf' as (Hsz' & _ & Hkin' & _).
      split; [exact Hkin' |]. split; [congruence |]. split.
      * replace (d2_size s) with (d2_size (periodCheck now s))
          by (unfold periodCheck, d2_size;
              destruct (i32 (secondInPeriod now s) <? m_ns s); reflexivity).
        destruct (_ <? _); cbn; rewrite !writtenIndices_app; cbn;
          rewrite app_nil_r; exact Hidx.
      * intros Hns. unfold periodCheck in Hmono.
        destruct (Z.ltb_spec (i32 (secondInPeriod now s)) (m_ns s)); [lia |].
        exact Hmono.
  - intros now now'.
    destruct (Hresync now now') as (s' & t & Hrun & Hwf' & Hk' & Hsz' & Hidx & _ & Hnew).
    exists s', t. split; [exact Hrun |]. split; [exact Hwf' |].
    split; [exact Hk' |]. split; [exact Hsz' |]. split; [exact Hidx | exact Hnew].
  - unfold wf, d2_size in *. cbn. rewrite length_replicate. repeat split; lia.
  - intros now now'. unfold reset, clear. destruct JS8_RING_BUFFER.
    + destruct (Hresync now now') as (s1 & t & -> & Hwf1 & Hk1 & Hsz1 & _ & -> & Hnew).
      cbn. eexists _, _, _. split; [reflexivity |].
      unfold wf, d2_size in *. cbn. rewrite length_replicate.
      repeat split; try lia; try exact Hnew; reflexivity.
    + cbn. eexists _, _, _. split; [reflexivity |].
      unfold wf, d2_size in *. cbn. repeat split; try lia; reflexivity.
Qed.

(** C3 as stated does not hold for [reset].  One second into the period,
    with no period boundary passed, a reset takes [kin] from 20000 down to
    12000 in the build with the ring buffer, and from 5 down to 0 in the
    build without. *)
Lemma reset_lowers_kin :
  match reset (P:=demo) 1000 1000 (demoState 20000 0 1) with
  | Ok (_, s', _) => kin (demoState 20000 0 1) = 20000 /\ kin s' = 12000
  | Err _ => False
  end /\
  match reset (P:=demoLinear) 1000 1000 staleState with
  | Ok (_, s', _) => kin staleState = 5 /\ kin s' = 0
  | Err _ => False
  end.
Proof. split; vm_compute; split; reflexivity. Qed.

(** C4.  When the second in the period computed by [writeData] is below
    the recorded one, [kin] and the window position are put to 0 before
    anything is stored, whatever they were, and the new second is recorded;
    so it is for the step from second 59 to second 0. *)
Theorem period_wrap_restarts (fuel : nat) (now : Z) (data : list Byte.byte) (k : Z)
  (s : Detector) :
  wf s -> 0 <= k -> k * bytesPerFrame < 2 ^ 63 -> (Z.to_nat k <= fuel)%nat ->
  (i32 (secondInPeriod now s) < m_ns s ->
   restartsPeriod fuel now data (k * bytesPerFrame) s) /\
  (m_ns s = 59 -> secondInPeriod now s = 0 ->
   restartsPeriod fuel now data (k * bytesPerFrame) s).
Proof.
  intros Hwf Hk Hmax Hfuel.
  assert (Hgen : i32 (secondInPeriod now s) < m_ns s ->
                 restartsPeriod fuel now data (k * bytesPerFrame) s).
  { intros Hlt.
    assert (Hpc : periodCheck now s
                  = set_ns (i32 (secondInPeriod now s)) (set_bufferPos 0 (set_kin 0 s))).
    { unfold periodCheck. destruct (Z.ltb_spec (i32 (secondInPeriod now s)) (m_ns s));
        [reflexivity | lia]. }
    assert (Hpc' : periodCheck now (set_bufferPos 0 (set_kin 0 s)) = periodCheck now s).
    { rewrite Hpc. unfold periodCheck.
      change (secondInPeriod now (set_bufferPos 0 (set_kin 0 s)))
        with (secondInPeriod now s).
      change (m_ns (set_bufferPos 0 (set_kin 0 s))) with (m_ns s).
      destruct (Z.ltb_spec (i32 (secondInPeriod now s)) (m_ns s)); [| lia].
      destruct s; reflexivity. }
    destruct (writeData_run NDOWN_pos bytesPerFrame_pos fuel now data (k * bytesPerFrame) s)
      as (s' & t & Hrun & Hadv & _); try assumption;
      [nia | apply Z.rem_mul; lia | rewrite Z.div_mul by lia; exact Hfuel |].
    destruct (writeData_first NDOWN_pos bytesPerFrame_pos fuel now data
                (k * bytesPerFrame) s Hwf _ _ _ Hrun) as [Hst Hwr].
    unfold restartsPeriod. rewrite Hpc in *. cbn in Hst, Hwr.
    split; [reflexivity |]. split; [reflexivity |]. split; [reflexivity |].
    split; [unfold writeData; rewrite Hpc', Hpc; reflexivity |].
    eexists _, _. split; [exact Hrun |].
    split; [apply Hadv |]. split; assumption. }
  split; [exact Hgen |].
  intros H59 H0. apply Hgen. rewrite H0, H59. reflexivity.
Qed.

(** C9, as the code has it.  Each of [writeData],
    [resetBufferPosition] and [resetBufferContent] takes the lock first
    and releases it last, and touches it nowhere in between: every
    [framesWritten] of [writeData] is emitted while the lock is held,
    none after its release. *)
Theorem lock_held_throughout (s : Detector) :
  wf s ->
  (forall fuel now data k,
      0 <= k -> k * bytesPerFrame < 2 ^ 63 -> (Z.to_nat k <= fuel)%nat ->
      exists s' body,
        let t := EvLock :: body ++ [EvUnlock] in
        writeData fuel now data (k * bytesPerFrame) s = Ok (k * bytesPerFrame, s', t) /\
        Forall (fun e => isLockEvent e = false) body /\
        emissionsLocked false t = emissions t /\
        emissionsUnlocked false t = []) /\
  (forall now now',
      exists s', resetBufferPosition now now' s = Ok (s', [EvLock; EvUnlock])) /\
  snd (resetBufferContent s) = [EvLock; EvUnlock].
Proof.
  intros Hwf. split; [| split].
  - intros fuel now data k Hk Hmax Hfuel.
    destruct (writeData_run NDOWN_pos bytesPerFrame_pos fuel now data (k * bytesPerFrame) s)
      as (s' & t & Hrun & Hadv & _); try assumption;
      [nia | apply Z.rem_mul; lia | rewrite Z.div_mul by lia; exact Hfuel |].
    destruct Hadv as (_ & _ & _ & _ & _ & _ & _ & _ & Hfree).
    rewrite app_assoc in Hrun.
    match type of Hrun with context [EvLock :: (?d ++ t) ++ _] => set (dbg := d) in * end.
    assert (Hdbg : Forall (fun e => isLockEvent e = false) dbg)
      by (subst dbg; destruct (_ <? _); repeat constructor).
    clearbody dbg.
    assert (Hb : Forall (fun e => isLockEvent e = false) (dbg ++ t))
      by (apply Forall_app; split; assumption).
    exists s', (dbg ++ t). cbv zeta. split; [exact Hrun |].
    split; [exact Hb |].
    cbn [emissionsLocked emissionsUnlocked emissions].
    destruct (emissions_split_no_lock true (dbg ++ t) [EvUnlock] Hb) as [-> ->].
    rewrite (emissions_app (dbg ++ t) [EvUnlock]). split; reflexivity.
  - intros now now'. destruct Hwf as (_ & Hcap & Hkin & _).
    destruct (resetBufferPosition_run now now' s Hcap Hkin) as [_ Hrun].
    eexists. exact Hrun.
  - reflexivity.
Qed.

(** C9 as stated does not hold.  A call that fills the window emits
    [framesWritten] between taking the lock and releasing it. *)
Lemma write_emits_under_lock :
  match writeData (P:=demo) 1 0 [] 32 (demoState 0 0 0) with
  | Ok (_, _, t) =>
    t = [EvLock; EvStore 0 16 0; EvD2Write 0 0; EvD2Write 1 8; EvD2Write 2 16;
         EvD2Write 3 24; EvFramesWritten 4; EvUnlock] /\
    emissionsLocked false t = [4] /\ emissionsUnlocked false t = []
  | Err _ => False
  end.
Proof. vm_compute. repeat split; reflexivity. Qed.

End Properties.

(** ** The properties at work on the small installation *)

(** The overflow scenario: five free slots, ten blocks of frames offered,
    five blocks stored. *)
Lemma write_accepts_min_witness :
  exists s' t,
    writeData (P:=demo) 40 0 [] 80 (demoState 719995 0 0) = Ok (80, s', t) /\
    storedFrames t = 20.
Proof.
  destruct (write_accepts_min (P:=demo) eq_refl eq_refl 40 0 [] 40 (demoState 719995 0 0))
    as (_ & s' & t & Hrun & Hst & _).
  - apply demoState_wf; lia.
  - lia.
  - reflexivity.
  - lia.
  - exists s', t. split; [exact Hrun |]. rewrite Hst. vm_compute. reflexivity.
Defined.

(** A block of sixteen frames fills the empty window at [kin = 100]: four
    samples are produced and the signal carries 104. *)
Lemma window_full_drains_witness :
  exists s',
    (exists t, writeRound (P:=demo) [] 16 16 (demoState 100 0 0) = Ok (16, s', t) /\
               emissions t = [104]) /\
    kin s' = 104 /\ m_bufferPos s' = 0.
Proof.
  destruct (window_full_drains (P:=demo) eq_refl eq_refl [] 16 16 (demoState 100 0 0))
    as (s' & Hrun & _ & _ & Hkin & Hem & Hpos & _).
  - apply demoState_wf; lia.
  - cbn. lia.
  - rewrite demoState_size. cbn. lia.
  - exists s'. split; [| split; [exact Hkin | exact Hpos]].
    eexists. split; [exact Hrun |]. rewrite Hem, Hkin. reflexivity.
Defined.

(** The same block at [kin = capacity - 4]: the signal carries the
    unchanged [kin]. *)
Lemma window_full_discards_witness :
  exists s',
    writeRound (P:=demo) [] 16 16 (demoState 719996 0 0)
    = Ok (16, s', [EvStore 0 16 0; EvFramesWritten 719996]) /\
    kin s' = 719996 /\ m_bufferPos s' = 0.
Proof.
  destruct (window_full_discards (P:=demo) eq_refl eq_refl [] 16 16 (demoState 719996 0 0))
    as (_ & Hdisc & _).
  - apply wf_wfWindow, demoState_wf; lia.
  - cbn. lia.
  - destruct Hdisc as (s' & Hrun & Hkin & _ & _ & Hpos & _).
    + left. rewrite demoState_size. cbn. lia.
    + exists s'. split; [exact Hrun |]. split; [exact Hkin | exact Hpos].
Defined.

(** A call of eight frames from [kin = 100] keeps the state well formed
    and does not move [kin] back. *)
Lemma kin_stays_within_capacity_witness :
  exists s' t,
    writeData (P:=demo) 8 0 [] 16 (demoState 100 3 0) = Ok (16, s', t) /\
    wf s' /\ 100 <= kin s'.
Proof.
  destruct (kin_stays_within_capacity (P:=demo) eq_refl eq_refl (demoState 100 3 0))
    as (Hwrite & _).
  - apply demoState_wf; lia.
  - destruct (Hwrite 8%nat 0 [] 8) as (s' & t & Hrun & Hwf & _ & _ & _ & Hmono);
      [lia | reflexivity | lia |].
    exists s', t. split; [exact Hrun |]. split; [exact Hwf |].
    apply Hmono. vm_compute. discriminate.
Defined.

(** Second 59 recorded, second 0 observed: the period restarts. *)
Lemma period_wrap_restarts_witness :
  restartsPeriod (P:=demo) 4 60000 [] 8 (demoState 500 7 59).
Proof.
  destruct (period_wrap_restarts (P:=demo) eq_refl eq_refl 4 60000 [] 4 (demoState 500 7 59))
    as (_ & Hwrap).
  - apply demoState_wf; lia.
  - lia.
  - reflexivity.
  - lia.
  - apply Hwrap; reflexivity.
Defined.

(** Five milliseconds into the period at 12000 frames per second: [kin]
    goes from 100 to 60. *)
Lemma resynchronize_rotates_witness :
  exists s',
    resetBufferPosition (P:=demo) 5 5 (demoState 100 3 0) = Ok (s', [EvLock; EvUnlock]) /\
    kin s' = 60 /\ m_bufferPos s' = 0.
Proof.
  destruct (resynchronize_rotates (P:=demo) 5 5 (demoState 100 3 0))
    as (s' & Hrun & Hkin & Hpos & _).
  - rewrite demoState_size. lia.
  - rewrite demoState_size. cbn. lia.
  - lia.
  - cbn. lia.
  - cbn. lia.
  - cbn. lia.
  - cbn. lia.
  - exists s'. split; [exact Hrun |]. split; [| exact Hpos].
    rewrite Hkin, demoState_size. reflexivity.
Defined.

(** Seven bytes are not a whole number of two-byte frames: the build
    with assertions stops there. *)
Lemma write_fails_iff_torn_witness :
  writeData (P:=demo) 3 0 [] 7 (demoState 0 0 0) = Err AssertionFailure.
Proof.
  destruct (write_fails_iff_torn (P:=demo) eq_refl eq_refl 3 0 [] 7 (demoState 0 0 0))
    as (_ & Hdebug & _).
  - apply demoState_wf; lia.
  - lia.
  - vm_compute. repeat constructor.
  - destruct (Hdebug eq_refl) as (Htorn & _).
    apply Htorn. intros [k Hk]. cbn in Hk. lia.
Defined.

(** A reset one second into the period. *)
Lemma reset_resynchronizes_witness :
  exists s' t,
    reset (P:=demo) 1000 1000 (demoState 0 0 0) = Ok (true, s', t) /\
    m_bufferPos s' = 0.
Proof.
  destruct (reset_resynchronizes (P:=demo) 1000 1000 (demoState 0 0 0))
    as (s' & t & Hrun & Hpos & _).
  - apply demoState_wf; lia.
  - exists s', t. split; [exact Hrun | exact Hpos].
Defined.

(** A call of sixteen frames keeps the lock from its first event to its
    last. *)
Lemma lock_held_throughout_witness :
  exists s' body,
    writeData (P:=demo) 16 0 [] 32 (demoState 0 0 0)
    = Ok (32, s', EvLock :: body ++ [EvUnlock]) /\
    Forall (fun e => isLockEvent e = false) body.
Proof.
  destruct (lock_held_throughout (P:=demo) eq_refl eq_refl (demoState 0 0 0))
    as (Hwrite & _).
  - apply demoState_wf; lia.
  - destruct (Hwrite 16%nat 0 [] 16) as (s' & body & Hrun & Hfree & _);
      [lia | reflexivity | lia |].
    exists s', body. split; [exact Hrun | exact Hfree].
Defined.

(** * Further properties of the pipeline *)

(** ** The second in the period and the period check *)

Section PeriodClock.

Context {P : Platform}.

(** For a clock at or after the epoch the C++ arithmetic of
    [secondInPeriod] is plain [mod] and [/]. *)
Lemma secondInPeriod_nonneg (now : Z) (s : Detector) :
  0 <= now ->
  secondInPeriod now s = ((now mod 86400000) / 1000) mod m_period s.
Proof.
  intros Hnow. unfold secondInPeriod.
  rewrite Z.rem_mod_nonneg by lia.
  pose proof (Z.mod_pos_bound now 86400000 ltac:(lia)) as Hday.
  rewrite Z.quot_div_nonneg by lia.
  rewrite u32_small; [reflexivity |].
  split; [apply Z.div_pos; lia |].
  apply Z.lt_le_trans with 86400; [apply Z.div_lt_upper_bound; lia | lia].
Qed.

(** When the period divides the day, the second in the period is the
    second since the epoch modulo the period. *)
Lemma secondInPeriod_divides (now : Z) (s : Detector) :
  0 <= now -> 0 < m_period s -> (m_period s | 86400) ->
  secondInPeriod now s = (now / 1000) mod m_period s.
Proof.
  intros Hnow Hp Hdiv. rewrite secondInPeriod_nonneg by exact Hnow.
  change 86400000 with (1000 * 86400).
  rewrite Z.rem_mul_r by lia.
  replace (now mod 1000 + 1000 * ((now / 1000) mod 86400))
    with ((now / 1000) mod 86400 * 1000 + now mod 1000) by lia.
  rewrite Z.div_add_l, (Z.div_small (now mod 1000)), Z.add_0_r by
    (try lia; apply Z.mod_pos_bound; lia).
  apply Z.mod_mod_divide. exact Hdiv.
Qed.

(** Within the period that starts at [q * period] seconds the second in
    the period counts the whole seconds since that start. *)
Lemma secondInPeriod_offset (now q r : Z) (s : Detector) :
  0 <= now -> 0 < m_period s -> (m_period s | 86400) ->
  now = q * (m_period s * 1000) + r -> 0 <= r < m_period s * 1000 ->
  secondInPeriod now s = r / 1000.
Proof.
  intros Hnow Hp Hdiv -> Hr. rewrite secondInPeriod_divides by assumption.
  replace (q * (m_period s * 1000) + r) with (q * m_period s * 1000 + r) by lia.
  rewrite Z.div_add_l by lia.
  replace (q * m_period s + r / 1000) with (r / 1000 + q * m_period s) by lia.
  rewrite Z.mod_add by lia.
  apply Z.mod_small. split; [apply Z.div_pos; lia |].
  apply Z.div_lt_upper_bound; lia.
Qed.

(** X1.  For a clock at or after the epoch and a positive period,
    [secondInPeriod] lies in [0, m_period) and is
    [((now mod 86400000) / 1000) mod m_period]; when the period divides
    the day it is [(now / 1000) mod m_period] and repeats every
    [m_period] seconds. *)
Theorem secondInPeriod_range (now : Z) (s : Detector) :
  0 <= now -> 0 < m_period s ->
  0 <= secondInPeriod now s < m_period s /\
  secondInPeriod now s = ((now mod 86400000) / 1000) mod m_period s /\
  ((m_period s | 86400) ->
   secondInPeriod now s = (now / 1000) mod m_period s /\
   secondInPeriod (now + m_period s * 1000) s = secondInPeriod now s).
Proof.
  intros Hnow Hp. rewrite secondInPeriod_nonneg by exact Hnow.
  split; [apply Z.mod_pos_bound; exact Hp |]. split; [reflexivity |].
  intros Hdiv. rewrite <- secondInPeriod_nonneg by exact Hnow.
  rewrite !secondInPeriod_divides by (assumption || nia).
  split; [reflexivity |].
  rewrite Z.div_add by lia.
  rewrite <- (Z.mod_add (now / 1000) 1 (m_period s)) by lia.
  f_equal. lia.
Qed.

(** X2.  No restart inside a period.  If the recorded second was taken at
    [now1] and the write comes at [now2 >= now1] in the same period, the
    period check leaves [kin] and the window position alone and records
    the new second. *)
Theorem same_period_no_restart (now1 now2 : Z) (s : Detector) :
  0 <= now1 <= now2 -> 0 < m_period s < 2 ^ 31 -> (m_period s | 86400) ->
  now1 / (m_period s * 1000) = now2 / (m_period s * 1000) ->
  m_ns s = i32 (secondInPeriod now1 s) ->
  kin (periodCheck now2 s) = kin s /\
  m_bufferPos (periodCheck now2 s) = m_bufferPos s /\
  m_ns (periodCheck now2 s) = secondInPeriod now2 s.
Proof.
  intros Hnow Hp Hdiv Hsame Hns.
  set (L := m_period s * 1000) in *.
  assert (HL : 0 < L) by (unfold L; lia).
  pose proof (Z.div_mod now1 L ltac:(lia)) as H1.
  pose proof (Z.div_mod now2 L ltac:(lia)) as H2.
  pose proof (Z.mod_pos_bound now1 L HL) as Hr1.
  pose proof (Z.mod_pos_bound now2 L HL) as Hr2.
  assert (Hs1 : secondInPeriod now1 s = (now1 mod L) / 1000).
  { apply (secondInPeriod_offset now1 (now1 / L)); try assumption; lia. }
  assert (Hs2 : secondInPeriod now2 s = (now2 mod L) / 1000).
  { apply (secondInPeriod_offset now2 (now2 / L)); try assumption; lia. }
  assert (Hle : now1 mod L <= now2 mod L) by (rewrite Hsame in H1; lia).
  assert (Hb1 : 0 <= now1 mod L / 1000 < m_period s).
  { split; [apply Z.div_pos; lia | apply Z.div_lt_upper_bound; unfold L in *; lia]. }
  assert (Hb2 : 0 <= now2 mod L / 1000 < m_period s).
  { split; [apply Z.div_pos; lia | apply Z.div_lt_upper_bound; unfold L in *; lia]. }
  assert (Hmono : now1 mod L / 1000 <= now2 mod L / 1000)
    by (apply Z.div_le_mono; lia).
  unfold periodCheck. rewrite Hns, Hs1, Hs2, !i32_small by lia.
  destruct (Z.ltb_spec (now2 mod L / 1000) (now1 mod L / 1000)); [lia |].
  repeat split; reflexivity.
Qed.

(** X3.  A period boundary is seen.  If the recorded second was taken at
    [now1], less than a second before the write at [now2], and a period
    starts in between, the period check puts [kin] and the window position
    to 0, for every period of two seconds or more. *)
Theorem period_boundary_detected (now1 now2 q : Z) (s : Detector) :
  0 <= now1 -> 2 <= m_period s < 2 ^ 31 -> (m_period s | 86400) ->
  now1 < q * (m_period s * 1000) <= now2 -> now2 < now1 + 1000 ->
  m_ns s = i32 (secondInPeriod now1 s) ->
  kin (periodCheck now2 s) = 0 /\
  m_bufferPos (periodCheck now2 s) = 0 /\
  m_ns (periodCheck now2 s) = 0.
Proof.
  intros Hnow Hp Hdiv Hq Hgap Hns.
  assert (Hs2 : secondInPeriod now2 s = 0).
  { rewrite (secondInPeriod_offset now2 q (now2 - q * (m_period s * 1000)));
      try assumption; try lia.
    apply Z.div_small. lia. }
  assert (Hs1 : secondInPeriod now1 s = m_period s - 1).
  { rewrite (secondInPeriod_offset now1 (q - 1)
               (now1 - (q - 1) * (m_period s * 1000))); try assumption; try lia.
    symmetry.
    apply Z.div_unique with (r := now1 - (q - 1) * (m_period s * 1000)
                                   - (m_period s - 1) * 1000); lia. }
  unfold periodCheck. rewrite Hns, Hs1, Hs2, !i32_small by lia.
  destruct (Z.ltb_spec 0 (m_period s - 1)); [| lia].
  repeat split; reflexivity.
Qed.

End PeriodClock.

(** ** Resynchronisation, clearing and reset *)

Section ResyncMore.

Context {P : Platform}.

Lemma std_rotate_rev_zero {A} (l : list A) : std_rotate_rev 0 l = l.
Proof.
  unfold std_rotate_rev, std_rotate. rewrite drop_0, take_0, app_nil_r.
  apply reverse_involutive.
Qed.

Lemma std_rotate_replicate {A} (mid n : nat) (x : A) :
  (mid <= n)%nat -> std_rotate mid (replicate n x) = replicate n x.
Proof.
  intros Hmid. unfold std_rotate.
  rewrite drop_replicate, take_replicate, Nat.min_l, <- replicate_add by lia.
  f_equal. lia.
Qed.

Lemma std_rotate_rev_replicate {A} (mid n : nat) (x : A) :
  (mid <= n)%nat -> std_rotate_rev mid (replicate n x) = replicate n x.
Proof.
  intros Hmid. unfold std_rotate_rev.
  rewrite reverse_replicate, std_rotate_replicate by exact Hmid.
  apply reverse_replicate.
Qed.

(** [resetBufferPosition] told by what it does to each entry: the entry at
    index [i] moves by the change of [kin], round the end of the array. *)
Lemma resetBufferPosition_moves (now now' : Z) (s : Detector) :
  d2_size s < 2 ^ 31 -> 0 <= kin s <= d2_size s ->
  exists s',
    resetBufferPosition now now' s = Ok (s', [EvLock; EvUnlock]) /\
    kin s' = Z.min (u32 (msInPeriod now s * m_frameRate s) / 1000) (d2_size s) /\
    0 <= kin s' <= d2_size s /\
    d2_size s' = d2_size s /\
    m_period s' = m_period s /\ m_frameRate s' = m_frameRate s /\
    (forall i, 0 <= i < d2_size s ->
               d2 s' !! Z.to_nat ((i + (kin s' - kin s)) mod d2_size s)
               = d2 s !! Z.to_nat i).
Proof.
  intros Hcap Hkin.
  destruct (resetBufferPosition_run now now' s Hcap Hkin) as [Hnew Hrun].
  set (newKin := Z.min _ _) in *.
  eexists. split; [exact Hrun |]. cbn [kin m_period m_frameRate].
  split; [reflexivity |]. split; [exact Hnew |].
  unfold d2_size in *. cbn [d2].
  split; [| split; [reflexivity | split; [reflexivity |]]].
  - destruct (_ <? _); [| unfold std_rotate_rev; rewrite length_reverse];
      rewrite std_rotate_length, ?length_reverse; reflexivity.
  - intros i Hi. destruct (Z.ltb_spec (newKin - kin s) 0).
    + rewrite <- (std_rotate_moves (Z.to_nat (kin s - newKin)) (d2 s) i) by lia.
      do 3 f_equal. lia.
    + rewrite std_rotate_rev_eq by lia.
      rewrite <- (std_rotate_moves (length (d2 s) - Z.to_nat (newKin - kin s)) (d2 s) i)
        by lia.
      do 2 f_equal.
      rewrite Nat2Z.inj_sub, Z2Nat.id by lia.
      replace (i - (Z.of_nat (length (d2 s)) - (newKin - kin s)))
        with (i + (newKin - kin s) + (-1) * Z.of_nat (length (d2 s))) by lia.
      symmetry. apply Z.mod_add. lia.
Qed.

(** With [kin] already where the clock puts it, only the window position
    and the recorded second change. *)
Lemma resetBufferPosition_fixed (now now' : Z) (s : Detector) :
  d2_size s < 2 ^ 31 -> 0 <= kin s <= d2_size s ->
  Z.min (u32 (msInPeriod now s * m_frameRate s) / 1000) (d2_size s) = kin s ->
  resetBufferPosition now now' s
  = Ok (mkDetector (m_frameRate s) (m_period s) (m_filter s) (m_buffer s) 0
          (m_samplesPerFFT s) (i32 (secondInPeriod now' s)) (kin s) (d2 s) (isOpen s),
        [EvLock; EvUnlock]).
Proof.
  intros Hcap Hkin Hsame.
  destruct (resetBufferPosition_run now now' s Hcap Hkin) as [_ Hrun].
  rewrite Hsame, Z.sub_diag in Hrun. cbn [Z.ltb Z.compare Z.to_nat] in Hrun.
  rewrite std_rotate_rev_zero in Hrun. exact Hrun.
Qed.

(** X4.  A resynchronisation that finds [kin] where the clock puts it
    leaves the content of [d2] as it is. *)
Theorem resynchronize_same_kin_keeps_buffer (now now' : Z) (s : Detector) :
  d2_size s < 2 ^ 31 -> 0 <= kin s <= d2_size s ->
  Z.min (u32 (msInPeriod now s * m_frameRate s) / 1000) (d2_size s) = kin s ->
  exists s',
    resetBufferPosition now now' s = Ok (s', [EvLock; EvUnlock]) /\
    kin s' = kin s /\ d2 s' = d2 s /\ m_bufferPos s' = 0.
Proof.
  intros Hcap Hkin Hsame.
  eexists. split; [apply resetBufferPosition_fixed; assumption |].
  repeat split; reflexivity.
Qed.

(** X5.  Two resynchronisations in a row rotate [d2] by the total change of
    [kin]; when the second one brings [kin] back, [d2] is as it was
    before the first. *)
Theorem resynchronize_twice_composes (now1 now1' now2 now2' : Z) (s : Detector) :
  d2_size s < 2 ^ 31 -> 0 <= kin s <= d2_size s ->
  exists s1 s2,
    resetBufferPosition now1 now1' s = Ok (s1, [EvLock; EvUnlock]) /\
    resetBufferPosition now2 now2' s1 = Ok (s2, [EvLock; EvUnlock]) /\
    (forall i, 0 <= i < d2_size s ->
               d2 s2 !! Z.to_nat ((i + (kin s2 - kin s)) mod d2_size s)
               = d2 s !! Z.to_nat i) /\
    (kin s2 = kin s -> d2 s2 = d2 s).
Proof.
  intros Hcap Hkin.
  destruct (resetBufferPosition_moves now1 now1' s Hcap Hkin)
    as (s1 & Hrun1 & _ & Hk1 & Hsz1 & _ & _ & Hmv1).
  destruct (resetBufferPosition_moves now2 now2' s1)
    as (s2 & Hrun2 & _ & Hk2 & Hsz2 & _ & _ & Hmv2); [lia | lia |].
  rewrite Hsz1 in Hmv2, Hsz2, Hk2.
  assert (Hmv : forall i, 0 <= i < d2_size s ->
            d2 s2 !! Z.to_nat ((i + (kin s2 - kin s)) mod d2_size s)
            = d2 s !! Z.to_nat i).
  { intros i Hi. rewrite <- (Hmv1 i Hi).
    rewrite <- (Hmv2 ((i + (kin s1 - kin s)) mod d2_size s))
      by (apply Z.mod_pos_bound; lia).
    rewrite Z.add_mod_idemp_l by lia. do 2 f_equal. f_equal. lia. }
  exists s1, s2. split; [exact Hrun1 |]. split; [exact Hrun2 |].
  split; [exact Hmv |].
  intros Hback. apply list_eq. intros j.
  destruct (Nat.lt_ge_cases j (length (d2 s))) as [Hj | Hj].
  - rewrite <- (Nat2Z.id j). rewrite <- (Hmv (Z.of_nat j)) by (unfold d2_size; lia).
    rewrite Hback, Z.sub_diag, Z.add_0_r, Z.mod_small by (unfold d2_size; lia).
    reflexivity.
  - rewrite !lookup_ge_None_2; [reflexivity | lia | unfold d2_size in *; lia].
Qed.

(** X6.  When [d2] holds a whole period ([m_period * m_frameRate <=
    capacity]) and the 32-bit product does not overflow, a
    resynchronisation is never cut off by the capacity: [kin] becomes
    [floor (msIntoPeriod * frameRate / 1000)], below
    [m_period * m_frameRate]. *)
Theorem resynchronize_below_capacity (now now' : Z) (s : Detector) :
  d2_size s < 2 ^ 31 -> 0 <= kin s <= d2_size s ->
  0 <= now -> 0 < m_period s -> 0 < m_frameRate s ->
  m_period s * 1000 * m_frameRate s <= 2 ^ 32 ->
  m_period s * m_frameRate s <= d2_size s ->
  exists s',
    resetBufferPosition now now' s = Ok (s', [EvLock; EvUnlock]) /\
    kin s' = ((now mod 86400000) mod (m_period s * 1000)) * m_frameRate s / 1000 /\
    0 <= kin s' < m_period s * m_frameRate s.
Proof.
  intros Hcap Hkin Hnow Hp Hrate Hprod Hfit.
  destruct (resetBufferPosition_moves now now' s Hcap Hkin) as (s' & Hrun & Hk & _).
  set (ms := (now mod 86400000) mod (m_period s * 1000)).
  assert (Hmsr : 0 <= ms < m_period s * 1000) by (apply Z.mod_pos_bound; lia).
  assert (Hms : msInPeriod now s = ms).
  { unfold msInPeriod, ms.
    rewrite (u32_small (m_period s * 1000)) by nia.
    pose proof (Z.mod_pos_bound now 86400000 ltac:(lia)).
    rewrite (Z.rem_mod_nonneg now) by lia.
    rewrite Z.rem_mod_nonneg by lia.
    apply u32_small. fold ms. nia. }
  rewrite Hms, (u32_small (ms * m_frameRate s)) in Hk by nia.
  assert (Hq : 0 <= ms * m_frameRate s / 1000 < m_period s * m_frameRate s).
  { split; [apply Z.div_pos; nia | apply Z.div_lt_upper_bound; nia]. }
  exists s'. split; [exact Hrun |]. rewrite Hk, Z.min_l by lia.
  split; [reflexivity | exact Hq].
Qed.

(** X7.  Clearing and resynchronising commute: either order gives the
    same state, an all-zero [d2] with [kin] at the clock's position. *)
Theorem clear_resync_commute (now now' : Z) (s : Detector) :
  d2_size s < 2 ^ 31 -> 0 <= kin s <= d2_size s ->
  exists s1,
    resetBufferPosition now now' s = Ok (s1, [EvLock; EvUnlock]) /\
    resetBufferPosition now now' (fst (resetBufferContent s))
    = Ok (fst (resetBufferContent s1), [EvLock; EvUnlock]).
Proof.
  intros Hcap Hkin.
  destruct (resetBufferPosition_run now now' s Hcap Hkin) as [Hnew Hrun].
  destruct (resetBufferPosition_run now now' (fst (resetBufferContent s)))
    as [_ Hrun0].
  { unfold d2_size in *. cbn. rewrite length_replicate. exact Hcap. }
  { unfold d2_size in *. cbn. rewrite length_replicate. exact Hkin. }
  eexists. split; [exact Hrun |]. rewrite Hrun0.
  unfold d2_size in *. cbn. rewrite length_replicate.
  set (newKin := Z.min _ _) in *.
  do 2 f_equal. unfold set_d2. cbn. f_equal.
  destruct (newKin - kin s <? 0).
  - rewrite std_rotate_replicate, std_rotate_length by lia. reflexivity.
  - rewrite std_rotate_rev_replicate by lia.
    unfold std_rotate_rev. rewrite length_reverse, std_rotate_length, length_reverse.
    reflexivity.
Qed.

(** X8.  [reset] is idempotent: a second [reset] at the same clock readings
    gives the state and the events of the first. *)
Theorem reset_idempotent (now now' : Z) (s : Detector) :
  wf s ->
  exists r s1 t,
    reset now now' s = Ok (r, s1, t) /\
    reset now now' s1 = Ok (r, s1, t).
Proof.
  intros (Hsz & Hcap & Hkin & _).
  unfold reset, clear. destruct JS8_RING_BUFFER.
  - destruct (resetBufferPosition_run now now' s Hcap Hkin) as [Hnew Hrun].
    set (K := Z.min _ _) in *.
    set (R := if K - kin s <? 0 then _ else _) in *.
    assert (HR : length R = length (d2 s)).
    { unfold R. destruct (_ <? _); [| unfold std_rotate_rev; rewrite length_reverse];
        rewrite std_rotate_length, ?length_reverse; reflexivity. }
    rewrite Hrun. cbn. rewrite HR.
    eexists _, _, _. split; [reflexivity |].
    rewrite resetBufferPosition_fixed.
    + cbn. rewrite length_replicate. reflexivity.
    + unfold d2_size in *. cbn. rewrite length_replicate. exact Hcap.
    + unfold d2_size in *. cbn. rewrite length_replicate. exact Hnew.
    + unfold d2_size in *. cbn. rewrite length_replicate. reflexivity.
  - cbn. eexists _, _, _. split; reflexivity.
Qed.

End ResyncMore.

(** ** More on [writeData] *)

Section WriteMore.

Context {P : Platform}.
Hypothesis NDOWN_pos : 0 < NDOWN.
Hypothesis bytesPerFrame_pos : 0 < bytesPerFrame.

(** The three ways a round from a well-formed state can go. *)
Lemma writeRound_elim (Q : Z -> Detector -> list event -> Prop)
  (data : list Byte.byte) (acc rem : Z) (s : Detector) :
  wf s -> 0 < rem ->
  let room := m_samplesPerFFT s * NDOWN - m_bufferPos s in
  let off := byteOffset acc rem in
  (rem < room ->
   Q rem (set_bufferPos (m_bufferPos s + rem)
            (set_buffer (windowAfterStore data off rem s) s))
     [EvStore off rem (m_bufferPos s)]) ->
  (room <= rem -> 0 <= kin s < d2_size s - m_samplesPerFFT s ->
   forall ys f,
     Z.of_nat (length ys) = m_samplesPerFFT s ->
     Q room (mkDetector (m_frameRate s) (m_period s) f
               (windowAfterStore data off room s) 0 (m_samplesPerFFT s) (m_ns s)
               (kin s + m_samplesPerFFT s)
               (list_inserts (Z.to_nat (kin s)) ys (d2 s)) (isOpen s))
       (EvStore off room (m_bufferPos s) :: d2Writes (kin s) ys
          ++ [EvFramesWritten (kin s + m_samplesPerFFT s)])) ->
  (room <= rem -> d2_size s - m_samplesPerFFT s <= kin s ->
   Q room (mkDetector (m_frameRate s) (m_period s) (m_filter s)
             (windowAfterStore data off room s) 0 (m_samplesPerFFT s) (m_ns s)
             (kin s) (d2 s) (isOpen s))
     [EvStore off room (m_bufferPos s); EvFramesWritten (kin s)]) ->
  forall n s1 t1, writeRound data acc rem s = Ok (n, s1, t1) -> Q n s1 t1.
Proof.
  intros Hwf Hrem room off Hpartial Hdrain Hdiscard n s1 t1 Hround.
  pose proof Hwf as (Hsz & Hcap & Hkin & Hspf & Hfit & Hlen & Hpos).
  destruct (Z_lt_le_dec rem room) as [Hlt | Hge].
  - rewrite writeRound_partial in Hround by assumption.
    injection Hround as <- <- <-. apply Hpartial, Hlt.
  - destruct (Z_lt_dec (kin s) (d2_size s - m_samplesPerFFT s)) as [H1 | H1].
    + rewrite writeRound_drain in Hround by (assumption || lia).
      injection Hround as <- <- <-.
      apply (Hdrain Hge); [lia |].
      rewrite filterRun_length. lia.
    + rewrite writeRound_discard in Hround
        by (assumption || lia || (apply wf_wfWindow; assumption)).
      injection Hround as <- <- <-. apply Hdiscard; lia.
Qed.

(** Induction over the rounds of a run of the outer loop. *)
Lemma writeLoop_elim (Q : Detector -> list event -> Detector -> Prop)
  (data : list Byte.byte) (acc : Z) :
  (forall s, wf s -> Q s [] s) ->
  (forall s rem n s1 t1 s2 t2,
      wf s -> 0 < rem -> writeRound data acc rem s = Ok (n, s1, t1) ->
      wf s1 -> Q s1 t2 s2 -> Q s (t1 ++ t2) s2) ->
  forall fuel rem s s' t,
    wf s -> 0 <= rem < 2 ^ 64 ->
    writeLoop fuel data acc rem s = Ok (s', t) -> Q s t s'.
Proof.
  intros Hnil Hstep.
  induction fuel as [| fuel IH]; intros rem s s' t Hwf Hrem Hloop.
  - cbn in Hloop. destruct (rem =? 0); [| discriminate].
    injection Hloop as <- <-. apply Hnil, Hwf.
  - cbn [writeLoop] in Hloop. destruct (Z.eqb_spec rem 0) as [-> | Hnz].
    { injection Hloop as <- <-. apply Hnil, Hwf. }
    destruct (writeRound_advance NDOWN_pos data acc rem s Hwf)
      as (n & s1 & t1 & Hround & Hn & Hadv & _); [lia |].
    rewrite Hround in Hloop. cbn in Hloop. rewrite u64_small in Hloop by lia.
    destruct (writeLoop fuel data acc (rem - n) s1) as [[s2 t2] |] eqn:Hrest;
      [| discriminate].
    cbn in Hloop. injection Hloop as <- <-.
    apply (Hstep s rem n s1 t1 s2 t2); try assumption; try lia; [apply Hadv |].
    apply (IH (rem - n)); [apply Hadv | lia | exact Hrest].
Qed.

(** A call with whole frames from a well-formed state, with the run of
    its loop. *)
Lemma writeData_loop (fuel : nat) (now : Z) (data : list Byte.byte) (k : Z)
  (s : Detector) :
  wf s -> 0 <= k -> k * bytesPerFrame < 2 ^ 63 -> (Z.to_nat k <= fuel)%nat ->
  let s1 := periodCheck now s in
  let a := Z.min k ((d2_size s1 - kin s1) * NDOWN) in
  exists s' t T,
    writeLoop fuel data a a s1 = Ok (s', t) /\
    writeData fuel now data (k * bytesPerFrame) s = Ok (k * bytesPerFrame, s', T) /\
    0 <= a <= k /\
    emissions T = emissions t /\ writtenIndices T = writtenIndices t /\
    storedFrames T = storedFrames t /\
    (a < k -> EvDropped (k - a) (kin s1) (m_ns s1) ∈ T) /\
    advance s1 s' t.
Proof.
  intros Hwf Hk Hmax Hfuel s1 a.
  assert (Hwf1 : wf s1) by (apply periodCheck_wf; assumption).
  assert (Hreq : requestedFrames (k * bytesPerFrame) = k).
  { rewrite requestedFrames_exact, Z.div_mul by nia. reflexivity. }
  assert (Hacc : framesAccepted (k * bytesPerFrame) s1 = a).
  { unfold framesAccepted. rewrite Hreq, framesAcceptable_exact by assumption.
    reflexivity. }
  assert (Ha : 0 <= a <= k).
  { unfold a. destruct Hwf1 as (_ & _ & ? & _). nia. }
  destruct (writeLoop_advance NDOWN_pos data a fuel a s1)
    as (s' & t & Hloop & Hadv & _); try assumption; try lia; [nia |].
  exists s', t. unfold writeData. fold s1.
  rewrite Z.rem_mul by lia. cbn [Z.eqb Q_ASSERT orb]. rewrite Hacc, Hreq, Hloop. cbn.
  eexists. split; [reflexivity |]. split; [reflexivity |]. split; [exact Ha |].
  destruct (Z.ltb_spec a k); cbn;
    rewrite !emissions_app, !writtenIndices_app, !storedFrames_app; cbn;
    rewrite ?app_nil_r, ?Z.add_0_r;
    (do 3 (split; [reflexivity |])); (split; [| exact Hadv]); [| lia].
  intros _. apply list_elem_of_further, list_elem_of_here.
Qed.

(** What the loop does to [d2]: only the slots from the old [kin] up to the
    new one may change. *)
Lemma writeLoop_frame (data : list Byte.byte) (acc : Z) (fuel : nat) :
  forall rem s s' t,
    wf s -> 0 <= rem < 2 ^ 64 ->
    writeLoop fuel data acc rem s = Ok (s', t) ->
    kin s <= kin s' /\
    length (d2 s') = length (d2 s) /\
    (forall i : nat, Z.of_nat i < kin s \/ kin s' <= Z.of_nat i ->
                     d2 s' !! i = d2 s !! i).
Proof.
  apply (writeLoop_elim
           (fun s t s' =>
              kin s <= kin s' /\ length (d2 s') = length (d2 s) /\
              (forall i : nat, Z.of_nat i < kin s \/ kin s' <= Z.of_nat i ->
                               d2 s' !! i = d2 s !! i))).
  - intros s _. repeat split; try reflexivity; lia.
  - intros s rem n s1 t1 s2 t2 Hwf Hrem Hround Hwf1 (Hk2 & Hl2 & Hd2).
    assert (Hr : kin s <= kin s1 /\ length (d2 s1) = length (d2 s) /\
                 (forall i : nat, Z.of_nat i < kin s \/ kin s1 <= Z.of_nat i ->
                                  d2 s1 !! i = d2 s !! i)).
    { clear Hwf1 Hk2 Hl2 Hd2. revert n s1 t1 Hround.
      apply writeRound_elim; try assumption; cbn.
      - intros _. repeat split; try reflexivity; lia.
      - intros _ Hk ys f Hys. rewrite length_inserts.
        split; [lia |]. split; [reflexivity |].
        intros i [Hi | Hi].
        + apply list_lookup_inserts_lt. lia.
        + apply list_lookup_inserts_ge. lia.
      - intros _ _. repeat split; try reflexivity; lia. }
    destruct Hr as (Hk1 & Hl1 & Hd1).
    split; [lia |]. split; [congruence |].
    intros i Hi. rewrite Hd2, Hd1 by lia. reflexivity.
Qed.

(** The signals of a run carry values of [kin] that never go back. *)
Lemma writeLoop_emissions_sorted (data : list Byte.byte) (acc : Z) (fuel : nat) :
  forall rem s s' t,
    wf s -> 0 <= rem < 2 ^ 64 ->
    writeLoop fuel data acc rem s = Ok (s', t) ->
    kin s <= kin s' /\
    StronglySorted Z.le (emissions t) /\
    Forall (fun e => kin s <= e <= kin s') (emissions t).
Proof.
  apply (writeLoop_elim
           (fun s t s' =>
              kin s <= kin s' /\ StronglySorted Z.le (emissions t) /\
              Forall (fun e => kin s <= e <= kin s') (emissions t))).
  - intros s _. cbn. repeat split; try constructor; lia.
  - intros s rem n s1 t1 s2 t2 Hwf Hrem Hround Hwf1 (Hk2 & Hs2 & Hb2).
    assert (Hr : kin s <= kin s1 /\
                 (emissions t1 = [] \/ emissions t1 = [kin s1])).
    { clear Hwf1 Hk2 Hs2 Hb2. revert n s1 t1 Hround.
      apply writeRound_elim; try assumption; cbn.
      - intros _. split; [lia | left; reflexivity].
      - intros _ Hk ys f Hys. split; [lia |]. right.
        rewrite emissions_app, emissions_d2Writes. reflexivity.
      - intros _ _. split; [lia | right; reflexivity]. }
    destruct Hr as (Hk1 & He1). rewrite emissions_app.
    split; [lia |]. split.
    + apply StronglySorted_app_2; [| destruct He1 as [-> | ->]; repeat constructor | exact Hs2].
      intros x1 x2 Hx1 Hx2.
      rewrite Forall_forall in Hb2. specialize (Hb2 x2 Hx2).
      destruct He1 as [He1 | He1]; rewrite He1 in Hx1.
      * inversion Hx1.
      * apply list_elem_of_singleton in Hx1. lia.
    + apply Forall_app. split.
      * destruct He1 as [-> | ->]; repeat constructor; lia.
      * eapply Forall_impl; [exact Hb2 |]. cbn. intros e He. lia.
Qed.

(** Once [kin] has reached the bound of the check the loop leaves [kin]
    and [d2] alone. *)
Lemma writeLoop_plateau (data : list Byte.byte) (acc : Z) (fuel : nat) :
  forall rem s s' t,
    wf s -> 0 <= rem < 2 ^ 64 ->
    writeLoop fuel data acc rem s = Ok (s', t) ->
    m_samplesPerFFT s' = m_samplesPerFFT s /\
    d2_size s' = d2_size s /\
    (d2_size s - m_samplesPerFFT s <= kin s ->
     kin s' = kin s /\ d2 s' = d2 s /\ writtenIndices t = [] /\
     Forall (fun e => e = kin s) (emissions t)).
Proof.
  apply (writeLoop_elim
           (fun s t s' =>
              m_samplesPerFFT s' = m_samplesPerFFT s /\
              d2_size s' = d2_size s /\
              (d2_size s - m_samplesPerFFT s <= kin s ->
               kin s' = kin s /\ d2 s' = d2 s /\ writtenIndices t = [] /\
               Forall (fun e => e = kin s) (emissions t)))).
  - intros s _. cbn. repeat split; constructor.
  - intros s rem n s1 t1 s2 t2 Hwf Hrem Hround Hwf1 (Hspf2 & Hsz2 & Hp2).
    assert (Hr : m_samplesPerFFT s1 = m_samplesPerFFT s /\
                 d2_size s1 = d2_size s /\
                 (d2_size s - m_samplesPerFFT s <= kin s ->
                  kin s1 = kin s /\ d2 s1 = d2 s /\ writtenIndices t1 = [] /\
                  Forall (fun e => e = kin s) (emissions t1))).
    { clear Hwf1 Hspf2 Hsz2 Hp2. revert n s1 t1 Hround.
      apply writeRound_elim; try assumption; unfold d2_size; cbn.
      - intros _. repeat split; constructor.
      - intros _ Hk ys f Hys. rewrite length_inserts.
        split; [reflexivity |]. split; [reflexivity |].
        unfold d2_size in Hk. lia.
      - intros _ _. repeat split; repeat constructor. }
    destruct Hr as (Hspf1 & Hsz1 & Hp1).
    split; [congruence |]. split; [congruence |].
    intros Hfull. destruct (Hp1 Hfull) as (Hk1 & Hd1 & Hw1 & He1).
    destruct Hp2 as (Hk2 & Hd2 & Hw2 & He2); [rewrite Hsz1, Hspf1, Hk1; exact Hfull |].
    rewrite writtenIndices_app, emissions_app, Hw1, Hw2.
    split; [congruence |]. split; [congruence |]. split; [reflexivity |].
    apply Forall_app. split; [exact He1 |]. rewrite Hk1 in He2. exact He2.
Qed.

(** X9.  [writeData] changes [d2] only in the slots from the [kin] the
    period check leaves up to the [kin] it ends with: every slot below
    and every slot from the new [kin] on keeps its sample, and [d2]
    keeps its size. *)
Theorem write_touches_only_new_slots (fuel : nat) (now : Z) (data : list Byte.byte)
  (k : Z) (s : Detector) :
  wf s -> 0 <= k -> k * bytesPerFrame < 2 ^ 63 -> (Z.to_nat k <= fuel)%nat ->
  exists s' t,
    writeData fuel now data (k * bytesPerFrame) s = Ok (k * bytesPerFrame, s', t) /\
    kin (periodCheck now s) <= kin s' /\
    length (d2 s') = length (d2 s) /\
    (forall i : nat,
        Z.of_nat i < kin (periodCheck now s) \/ kin s' <= Z.of_nat i ->
        d2 s' !! i = d2 s !! i).
Proof.
  intros Hwf Hk Hmax Hfuel.
  destruct (writeData_loop fuel now data k s Hwf Hk Hmax Hfuel)
    as (s' & t & T & Hloop & Hrun & Ha & _).
  apply writeLoop_frame in Hloop; [| apply periodCheck_wf; assumption | nia].
  destruct Hloop as (Hk' & Hlen & Hd).
  assert (Hd2 : d2 (periodCheck now s) = d2 s).
  { unfold periodCheck. destruct (_ <? _); reflexivity. }
  rewrite Hd2 in Hlen, Hd.
  exists s', T. split; [exact Hrun |]. split; [exact Hk' |]. split; assumption.
Qed.

(** X10.  The values carried by the [framesWritten] signals of one call
    never decrease; they lie between the [kin] the period check leaves
    and the final [kin], which is at most the capacity. *)
Theorem write_emissions_sorted (fuel : nat) (now : Z) (data : list Byte.byte)
  (k : Z) (s : Detector) :
  wf s -> 0 <= k -> k * bytesPerFrame < 2 ^ 63 -> (Z.to_nat k <= fuel)%nat ->
  exists s' t,
    writeData fuel now data (k * bytesPerFrame) s = Ok (k * bytesPerFrame, s', t) /\
    StronglySorted Z.le (emissions t) /\
    Forall (fun e => kin (periodCheck now s) <= e <= kin s') (emissions t) /\
    kin s' <= d2_size s.
Proof.
  intros Hwf Hk Hmax Hfuel.
  destruct (writeData_loop fuel now data k s Hwf Hk Hmax Hfuel)
    as (s' & t & T & Hloop & Hrun & Ha & Hem & _ & _ & _ & Hadv).
  assert (Hwf1 : wf (periodCheck now s)) by (apply periodCheck_wf; assumption).
  destruct Hadv as ((Hsz' & _ & Hkin' & _) & _).
  apply writeLoop_emissions_sorted in Hloop; [| exact Hwf1 | nia].
  destruct Hloop as (_ & Hsorted & Hbound).
  exists s', T. split; [exact Hrun |]. rewrite Hem.
  split; [exact Hsorted |]. split; [exact Hbound |].
  destruct Hwf as (Hsz & _). lia.
Qed.

(** X11.  The plateau.  When the period check leaves [kin] at or above
    [capacity - m_samplesPerFFT], a call produces no sample: [kin] and
    [d2] stay as they are and every signal it emits carries that same
    [kin]. *)
Theorem write_plateau (fuel : nat) (now : Z) (data : list Byte.byte)
  (k : Z) (s : Detector) :
  wf s -> 0 <= k -> k * bytesPerFrame < 2 ^ 63 -> (Z.to_nat k <= fuel)%nat ->
  d2_size s - m_samplesPerFFT s <= kin (periodCheck now s) ->
  exists s' t,
    writeData fuel now data (k * bytesPerFrame) s = Ok (k * bytesPerFrame, s', t) /\
    kin s' = kin (periodCheck now s) /\
    d2 s' = d2 s /\
    writtenIndices t = [] /\
    Forall (fun e => e = kin (periodCheck now s)) (emissions t).
Proof.
  intros Hwf Hk Hmax Hfuel Hfull.
  destruct (writeData_loop fuel now data k s Hwf Hk Hmax Hfuel)
    as (s' & t & T & Hloop & Hrun & Ha & Hem & Hwi & _).
  apply writeLoop_plateau in Hloop; [| apply periodCheck_wf; assumption | nia].
  assert (Hsame : d2 (periodCheck now s) = d2 s /\
                  m_samplesPerFFT (periodCheck now s) = m_samplesPerFFT s).
  { unfold periodCheck. destruct (_ <? _); split; reflexivity. }
  destruct Hsame as [Hd2 Hspf].
  destruct Hloop as (_ & _ & Hp).
  destruct Hp as (Hk' & Hd' & Hw' & He').
  { unfold d2_size. rewrite Hd2, Hspf. exact Hfull. }
  exists s', T. split; [exact Hrun |]. rewrite Hem, Hwi.
  split; [exact Hk' |]. split; [congruence |]. split; assumption.
Qed.

(** X12.  A write of zero bytes does the period check and nothing else,
    from any state and with any fuel: it returns 0 and its only events
    are taking and releasing the lock. *)
Theorem write_nothing (fuel : nat) (now : Z) (data : list Byte.byte) (s : Detector) :
  writeData fuel now data 0 s = Ok (0, periodCheck now s, [EvLock; EvUnlock]).
Proof.
  unfold writeData.
  assert (Hrem : Z.rem 0 bytesPerFrame = 0) by (apply Z.rem_0_l; lia).
  rewrite Hrem. cbn [Z.eqb Q_ASSERT orb].
  assert (Hreq : requestedFrames 0 = 0).
  { unfold requestedFrames. change (u64 0) with 0. apply Z.div_0_l. lia. }
  assert (Hacc : framesAccepted 0 (periodCheck now s) = 0).
  { unfold framesAccepted. rewrite Hreq. apply Z.min_l.
    unfold framesAcceptable, u64, wrap. apply Z.mod_pos_bound. lia. }
  rewrite Hacc, Hreq, writeLoop_done. reflexivity.
Qed.

(** X13.  When the period check leaves [kin] at the capacity, a call
    stores nothing at all: the state is the one the period check leaves,
    whatever the fuel, and the diagnostic line reports every frame as
    dropped. *)
Theorem write_when_full_stores_nothing (fuel : nat) (now : Z) (data : list Byte.byte)
  (k : Z) (s : Detector) :
  wf s -> 0 < k -> k * bytesPerFrame < 2 ^ 63 ->
  kin (periodCheck now s) = d2_size s ->
  writeData fuel now data (k * bytesPerFrame) s
  = Ok (k * bytesPerFrame, periodCheck now s,
        [EvLock; EvDropped k (d2_size s) (m_ns (periodCheck now s)); EvUnlock]).
Proof.
  intros Hwf Hk Hmax Hfull.
  assert (Hwf1 : wf (periodCheck now s)) by (apply periodCheck_wf; assumption).
  assert (Hsz : d2_size (periodCheck now s) = d2_size s).
  { unfold periodCheck, d2_size. destruct (_ <? _); reflexivity. }
  unfold writeData. rewrite Z.rem_mul by lia. cbn [Z.eqb Q_ASSERT orb].
  assert (Hreq : requestedFrames (k * bytesPerFrame) = k).
  { rewrite requestedFrames_exact, Z.div_mul by nia. reflexivity. }
  assert (Hacc : framesAccepted (k * bytesPerFrame) (periodCheck now s) = 0).
  { unfold framesAccepted.
    rewrite Hreq, framesAcceptable_exact, Hsz, Hfull, Z.sub_diag by assumption.
    cbn. lia. }
  rewrite Hacc, Hreq, writeLoop_done, Hfull.
  destruct (Z.ltb_spec 0 k); [| lia]. cbn. rewrite Z.sub_0_r. reflexivity.
Qed.

(** With a block size of 0 and the window position at 0 a round takes no
    frame and leaves the state as it is. *)
Lemma writeLoop_block_size_zero (data : list Byte.byte) (acc : Z) (fuel : nat) :
  forall rem s,
    m_samplesPerFFT s = 0 -> m_bufferPos s = 0 -> 0 < rem < 2 ^ 64 ->
    writeLoop fuel data acc rem s = Err OutOfFuel.
Proof.
  induction fuel as [| fuel IH]; intros rem s Hspf Hpos Hrem.
  - cbn. destruct (Z.eqb_spec rem 0); [lia | reflexivity].
  - cbn [writeLoop]. destruct (Z.eqb_spec rem 0); [lia |].
    assert (Hw : u64 (m_samplesPerFFT s * NDOWN) = 0) by (rewrite Hspf; reflexivity).
    unfold writeRound. rewrite Hw, Hpos. change (u64 (0 - 0)) with 0.
    rewrite Z.min_l by lia. change (0 + 0) with 0. change (u64 0) with 0.
    destruct (Z.leb_spec 0 (Z.of_nat (length (m_buffer s)))); [| lia].
    cbn [m_bufferPos set_bufferPos set_buffer kin m_samplesPerFFT Z.eqb].
    rewrite Hspf. change (Z.to_nat 0) with 0%nat. cbn [downSampleLoop].
    assert (Hnext : forall s1, m_samplesPerFFT s1 = 0 -> m_bufferPos s1 = 0 ->
              writeLoop fuel data acc (u64 (rem - 0)) s1 = Err OutOfFuel).
    { intros s1 H1 H2. rewrite Z.sub_0_r, u64_small by lia. apply IH; assumption. }
    destruct (_ && _); cbn; rewrite Hnext; reflexivity || assumption.
Qed.

(** X14.  A block size of 0 hangs the writer.  After [setBlockSize 0],
    with the window position at 0, a call that accepts at least one
    frame never leaves its loop: whatever the fuel, the run has not
    ended. *)
Theorem write_block_size_zero_never_ends (fuel : nat) (now : Z)
  (data : list Byte.byte) (k : Z) (s : Detector) :
  0 < k -> k * bytesPerFrame < 2 ^ 63 ->
  m_bufferPos (periodCheck now (setBlockSize 0 s)) = 0 ->
  0 < framesAcceptable (periodCheck now (setBlockSize 0 s)) ->
  writeData fuel now data (k * bytesPerFrame) (setBlockSize 0 s) = Err OutOfFuel.
Proof.
  intros Hk Hmax Hpos Hroom.
  unfold writeData. rewrite Z.rem_mul by lia. cbn [Z.eqb Q_ASSERT orb].
  assert (Hacc : 0 < framesAccepted (k * bytesPerFrame)
                       (periodCheck now (setBlockSize 0 s)) < 2 ^ 64).
  { unfold framesAccepted.
    rewrite requestedFrames_exact, Z.div_mul by nia.
    assert (framesAcceptable (periodCheck now (setBlockSize 0 s)) < 2 ^ 64).
    { unfold framesAcceptable, u64, wrap. apply Z.mod_pos_bound. lia. }
    lia. }
  rewrite writeLoop_block_size_zero; [reflexivity | | exact Hpos | exact Hacc].
  unfold periodCheck, setBlockSize. destruct (_ <? _); reflexivity.
Qed.

(** X16.  A call that does not fill the window only stores: its [k]
    frames land in the window from the window position on, the position
    advances by [k], no signal is emitted and [kin] and [d2] stay as the
    period check leaves them. *)
Theorem write_partial_window (fuel : nat) (now : Z) (data : list Byte.byte)
  (k : Z) (s : Detector) :
  wf s -> 0 < k -> k * bytesPerFrame < 2 ^ 63 ->
  let s1 := periodCheck now s in
  k <= (d2_size s1 - kin s1) * NDOWN ->
  m_bufferPos s1 + k < m_samplesPerFFT s1 * NDOWN ->
  exists s',
    writeData (S fuel) now data (k * bytesPerFrame) s
    = Ok (k * bytesPerFrame, s', [EvLock; EvStore 0 k (m_bufferPos s1); EvUnlock]) /\
    m_buffer s' = take (Z.to_nat (m_bufferPos s1)) (m_buffer s)
                    ++ store data 0 k
                    ++ drop (Z.to_nat (m_bufferPos s1 + k)) (m_buffer s) /\
    m_bufferPos s' = m_bufferPos s1 + k /\
    kin s' = kin s1 /\ d2 s' = d2 s.
Proof.
  intros Hwf Hk Hmax s1 Hroom Hpart.
  assert (Hwf1 : wf s1) by (apply periodCheck_wf; assumption).
  pose proof Hwf1 as (Hsz & Hcap & Hkin & Hspf & Hfit & Hlen & Hpos).
  assert (Hround := writeRound_partial NDOWN_pos data k k s1 Hwf1 Hk ltac:(lia)).
  assert (Hoff : byteOffset k k = 0).
  { unfold byteOffset. rewrite Z.sub_diag. reflexivity. }
  rewrite Hoff in Hround.
  assert (Hsame : d2 s1 = d2 s /\ m_buffer s1 = m_buffer s).
  { unfold s1, periodCheck. destruct (_ <? _); split; reflexivity. }
  destruct Hsame as [Hd2 Hbuf].
  assert (Hcall := writeData_single_round NDOWN_pos bytesPerFrame_pos fuel now data k s
                      _ _ (wf_wfWindow _ Hwf1) ltac:(fold s1; lia) Hk Hmax Hroom Hround).
  eexists. split.
  - exact Hcall.
  - cbn [m_buffer m_bufferPos kin d2 set_bufferPos set_buffer].
    unfold windowAfterStore. rewrite Hbuf in *.
    split; [| split; [reflexivity | split; [reflexivity | exact Hd2]]].
    rewrite list_inserts_splice.
    + unfold store at 2. rewrite length_map, length_seq.
      do 3 f_equal. lia.
    + unfold store. rewrite length_map, length_seq. lia.
Qed.

(** X17.  Writing in two parts.  With no period restart in between, no
    frame dropped and the check passing at every fill, a write of [k1]
    frames followed by a write of [k2] frames leaves [kin] and the window
    position where one write of [k1 + k2] frames leaves them, and the two
    calls together emit the same signals and write the same slots of
    [d2], in the same order, as the single call. *)
Theorem write_in_two_parts (fuel : nat) (now1 now2 : Z)
  (data1 data2 dataT : list Byte.byte) (k1 k2 : Z) (s : Detector) :
  wf s -> 0 <= k1 -> 0 <= k2 -> (k1 + k2) * bytesPerFrame < 2 ^ 63 ->
  (Z.to_nat (k1 + k2) <= fuel)%nat ->
  i32 (secondInPeriod now1 s) <= i32 (secondInPeriod now2 s) ->
  let s1 := periodCheck now1 s in
  let W := m_samplesPerFFT s1 * NDOWN in
  let mT := (m_bufferPos s1 + (k1 + k2)) / W in
  kin s1 + mT * m_samplesPerFFT s1 < d2_size s1 ->
  k1 + k2 <= (d2_size s1 - (kin s1 + mT * m_samplesPerFFT s1)) * NDOWN ->
  exists sa ta sb tb sT tT,
    writeData fuel now1 data1 (k1 * bytesPerFrame) s = Ok (k1 * bytesPerFrame, sa, ta) /\
    writeData fuel now2 data2 (k2 * bytesPerFrame) sa = Ok (k2 * bytesPerFrame, sb, tb) /\
    writeData fuel now1 dataT ((k1 + k2) * bytesPerFrame) s
    = Ok ((k1 + k2) * bytesPerFrame, sT, tT) /\
    kin sb = kin sT /\
    m_bufferPos sb = m_bufferPos sT /\
    emissions ta ++ emissions tb = emissions tT /\
    writtenIndices ta ++ writtenIndices tb = writtenIndices tT.
Proof.
  intros Hwf Hk1 Hk2 Hmax Hfuel Hnowrap s1 W mT HT Hroom.
  assert (Hwf1 : wf s1) by (apply periodCheck_wf; assumption).
  pose proof Hwf1 as (Hsz & Hcap & Hkin & Hspf & Hfit & Hlen & Hpos).
  set (n := m_samplesPerFFT s1) in *.
  assert (HW : 0 < W) by (unfold W; nia).
  assert (HmT : 0 <= mT) by (apply Z.div_pos; lia).
  set (m1 := (m_bufferPos s1 + k1) / W).
  set (pa := (m_bufferPos s1 + k1) mod W).
  set (m2 := (pa + k2) / W).
  assert (Hm1 : 0 <= m1) by (apply Z.div_pos; lia).
  assert (Hpa : 0 <= pa < W) by (apply Z.mod_pos_bound; lia).
  assert (Hm2 : 0 <= m2) by (apply Z.div_pos; lia).
  assert (Hsum : mT = m1 + m2).
  { unfold mT, m2.
    replace (m_bufferPos s1 + (k1 + k2)) with (m1 * W + (pa + k2)).
    - rewrite Z.div_add_l by lia. reflexivity.
    - pose proof (Z.div_mod (m_bufferPos s1 + k1) W ltac:(lia)). fold m1 pa in H. lia. }
  assert (HposT : (m_bufferPos s1 + (k1 + k2)) mod W = (pa + k2) mod W).
  { unfold pa. rewrite Z.add_mod_idemp_l by lia. f_equal. lia. }
  assert (Hmul : 0 <= m1 * n /\ 0 <= m2 * n /\ mT * n = m1 * n + m2 * n).
  { split; [apply Z.mul_nonneg_nonneg; lia |].
    split; [apply Z.mul_nonneg_nonneg; lia |].
    rewrite Hsum. apply Z.mul_add_distr_r. }
  assert (Hbytes : 0 <= k1 * bytesPerFrame /\ 0 <= k2 * bytesPerFrame)
    by (split; apply Z.mul_nonneg_nonneg; lia).
  assert (Hmax1 : k1 * bytesPerFrame < 2 ^ 63)
    by (rewrite Z.mul_add_distr_r in Hmax; lia).
  assert (Hmax2 : k2 * bytesPerFrame < 2 ^ 63)
    by (rewrite Z.mul_add_distr_r in Hmax; lia).
  assert (Hfuel1 : (Z.to_nat k1 <= fuel)%nat) by lia.
  assert (Hfuel2 : (Z.to_nat k2 <= fuel)%nat) by lia.
  assert (Hdown : 0 <= m1 * n * NDOWN /\ 0 <= m2 * n * NDOWN)
    by (split; apply Z.mul_nonneg_nonneg; lia).
  assert (Hroom' : k1 + k2
                   <= (d2_size s1 - kin s1) * NDOWN - m1 * n * NDOWN - m2 * n * NDOWN).
  { destruct Hmul as (_ & _ & Heq). rewrite Heq in Hroom.
    rewrite !Z.mul_sub_distr_r, !Z.mul_add_distr_r in Hroom.
    rewrite !Z.mul_sub_distr_r. lia. }
  (* the first call *)
  destruct (writeData_fills NDOWN_pos bytesPerFrame_pos fuel now1 data1 k1 s)
    as (sa & ta & Hrun1 & _ & Hpos1 & Hv1);
    [exact Hwf1 | exact Hk1 | exact Hmax1 | exact Hfuel1 |].
  fold s1 in Hpos1, Hv1. fold n W in Hpos1, Hv1.
  rewrite Z.min_l in Hpos1, Hv1 by lia. fold m1 pa in Hpos1, Hv1.
  destruct Hv1 as (Hka & Hea & Hwa); [left; lia |].
  destruct (writeData_run NDOWN_pos bytesPerFrame_pos fuel now1 data1
              (k1 * bytesPerFrame) s)
    as (sa' & ta' & Hrun1' & Hadv & _); try assumption;
    [lia | apply Z.rem_mul; lia | rewrite Z.div_mul by lia; lia |].
  rewrite Hrun1 in Hrun1'. injection Hrun1' as <- _.
  fold s1 in Hadv.
  destruct Hadv as (Hwfa & _ & Hnsa & Hspfa & Hpera & _).
  assert (Hsza : d2_size sa = d2_size s1).
  { destruct Hwfa as (-> & _). symmetry. exact Hsz. }
  (* the second call starts where the first one ended *)
  assert (Hpc : periodCheck now2 sa = set_ns (i32 (secondInPeriod now2 s)) sa).
  { unfold periodCheck, secondInPeriod. rewrite Hpera, Hnsa.
    assert (Hper1 : m_period s1 = m_period s /\
                    m_ns s1 = i32 (secondInPeriod now1 s)).
    { unfold s1, periodCheck. destruct (_ <? _); split; reflexivity. }
    destruct Hper1 as [-> ->]. fold (secondInPeriod now2 s).
    destruct (Z.ltb_spec (i32 (secondInPeriod now2 s)) (i32 (secondInPeriod now1 s)));
      [lia | reflexivity]. }
  destruct (writeData_fills NDOWN_pos bytesPerFrame_pos fuel now2 data2 k2 sa)
    as (sb & tb & Hrun2 & _ & Hpos2 & Hv2);
    [apply periodCheck_wf; assumption | exact Hk2 | exact Hmax2 | exact Hfuel2 |].
  rewrite Hpc in Hpos2, Hv2.
  change (kin (set_ns _ sa)) with (kin sa) in Hpos2, Hv2.
  change (m_bufferPos (set_ns _ sa)) with (m_bufferPos sa) in Hpos2, Hv2.
  change (m_samplesPerFFT (set_ns _ sa)) with (m_samplesPerFFT sa) in Hpos2, Hv2.
  change (d2_size (set_ns _ sa)) with (d2_size sa) in Hpos2, Hv2.
  rewrite Hspfa, Hsza, Hka, Hpos1 in Hpos2, Hv2. fold n W in Hpos2, Hv2.
  rewrite Z.min_l in Hpos2, Hv2
    by (rewrite Z.sub_add_distr, Z.mul_sub_distr_r; lia).
  fold m2 in Hpos2, Hv2.
  destruct Hv2 as (Hkb & Heb & Hwb); [left; lia |].
  (* the single call *)
  destruct (writeData_fills NDOWN_pos bytesPerFrame_pos fuel now1 dataT (k1 + k2) s)
    as (sT & tT & HrunT & _ & HposT' & HvT);
    [exact Hwf1 | lia | exact Hmax | exact Hfuel |].
  fold s1 in HposT', HvT. fold n W in HposT', HvT.
  rewrite Z.min_l in HposT', HvT by lia. fold mT in HposT', HvT.
  destruct HvT as (HkT & HeT & HwT); [left; lia |].
  exists sa, ta, sb, tb, sT, tT.
  split; [exact Hrun1 |]. split; [exact Hrun2 |]. split; [exact HrunT |].
  split; [lia |]. split; [congruence |]. split.
  - rewrite Hea, Heb, HeT, Hsum.
    rewrite seqZ_app, fmap_app by lia. f_equal.
    replace (1 + m1) with (m1 + 1) by lia.
    rewrite <- fmap_add_seqZ, <- list_fmap_compose.
    apply list_fmap_ext. intros _ j _. cbn. lia.
  - rewrite Hwa, Hwb, HwT.
    replace (mT * n) with (m1 * n + m2 * n) by lia.
    rewrite seqZ_app by lia. reflexivity.
Qed.

End WriteMore.

(** ** The further properties at work on the small installation *)

Lemma demo_periodCheck_idle (k pos : Z) :
  periodCheck (P:=demo) 0 (demoState k pos 0) = demoState k pos 0.
Proof. reflexivity. Qed.

Lemma demo_divides_day : (m_period (demoState 0 0 0) | 86400).
Proof. exists 1440. reflexivity. Qed.

(** One and a half seconds into the second minute. *)
Lemma secondInPeriod_range_witness :
  0 <= secondInPeriod (P:=demo) 61500 (demoState 0 0 0) < 60.
Proof.
  destruct (secondInPeriod_range (P:=demo) 61500 (demoState 0 0 0)) as (Hr & _).
  - lia.
  - cbn. lia.
  - exact Hr.
Defined.

(** Second 1 recorded, second 15 of the same minute observed. *)
Lemma same_period_no_restart_witness :
  kin (periodCheck (P:=demo) 75000 (demoState 100 3 1)) = 100.
Proof.
  destruct (same_period_no_restart (P:=demo) 61000 75000 (demoState 100 3 1))
    as (Hkin & _).
  - lia.
  - cbn. lia.
  - exact demo_divides_day.
  - reflexivity.
  - reflexivity.
  - exact Hkin.
Defined.

(** Half a second before the minute and a fifth of a second after it. *)
Lemma period_boundary_detected_witness :
  kin (periodCheck (P:=demo) 60200 (demoState 700 5 59)) = 0.
Proof.
  destruct (period_boundary_detected (P:=demo) 59500 60200 1 (demoState 700 5 59))
    as (Hkin & _).
  - lia.
  - cbn. lia.
  - exact demo_divides_day.
  - cbn. lia.
  - lia.
  - reflexivity.
  - exact Hkin.
Defined.

(** [kin] is 60 five milliseconds into the period. *)
Lemma resynchronize_same_kin_keeps_buffer_witness :
  exists s',
    resetBufferPosition (P:=demo) 5 5 (demoState 60 3 0) = Ok (s', [EvLock; EvUnlock]) /\
    d2 s' = d2 (demoState 60 3 0).
Proof.
  destruct (resynchronize_same_kin_keeps_buffer (P:=demo) 5 5 (demoState 60 3 0))
    as (s' & Hrun & _ & Hd2 & _).
  - rewrite demoState_size. lia.
  - rewrite demoState_size. cbn. lia.
  - rewrite demoState_size. reflexivity.
  - exists s'. split; [exact Hrun | exact Hd2].
Defined.

Lemma resynchronize_twice_composes_witness :
  exists s1 s2,
    resetBufferPosition (P:=demo) 5 5 (demoState 100 3 0) = Ok (s1, [EvLock; EvUnlock]) /\
    resetBufferPosition (P:=demo) 20 20 s1 = Ok (s2, [EvLock; EvUnlock]).
Proof.
  destruct (resynchronize_twice_composes (P:=demo) 5 5 20 20 (demoState 100 3 0))
    as (s1 & s2 & Hrun1 & Hrun2 & _).
  - rewrite demoState_size. lia.
  - rewrite demoState_size. cbn. lia.
  - exists s1, s2. split; [exact Hrun1 | exact Hrun2].
Defined.

Lemma resynchronize_below_capacity_witness :
  exists s',
    resetBufferPosition (P:=demo) 5 5 (demoState 100 3 0) = Ok (s', [EvLock; EvUnlock]) /\
    kin s' = 60.
Proof.
  destruct (resynchronize_below_capacity (P:=demo) 5 5 (demoState 100 3 0))
    as (s' & Hrun & Hkin & _).
  - rewrite demoState_size. lia.
  - rewrite demoState_size. cbn. lia.
  - lia.
  - cbn. lia.
  - cbn. lia.
  - cbn. lia.
  - rewrite demoState_size. cbn. lia.
  - exists s'. split; [exact Hrun |]. rewrite Hkin. reflexivity.
Defined.

Lemma clear_resync_commute_witness :
  exists s1,
    resetBufferPosition (P:=demo) 5 5 (demoState 100 3 0) = Ok (s1, [EvLock; EvUnlock]) /\
    resetBufferPosition (P:=demo) 5 5 (fst (resetBufferContent (demoState 100 3 0)))
    = Ok (fst (resetBufferContent s1), [EvLock; EvUnlock]).
Proof.
  apply (clear_resync_commute (P:=demo) 5 5 (demoState 100 3 0)).
  - rewrite demoState_size. lia.
  - rewrite demoState_size. cbn. lia.
Defined.

Lemma reset_idempotent_witness :
  exists r s1 t,
    reset (P:=demo) 1000 1000 (demoState 100 3 0) = Ok (r, s1, t) /\
    reset (P:=demo) 1000 1000 s1 = Ok (r, s1, t).
Proof.
  apply (reset_idempotent (P:=demo) 1000 1000 (demoState 100 3 0)).
  apply demoState_wf; lia.
Defined.

Lemma write_touches_only_new_slots_witness :
  exists s' t,
    writeData (P:=demo) 16 0 [] 32 (demoState 100 3 0) = Ok (32, s', t) /\
    d2 s' !! 99%nat = d2 (demoState 100 3 0) !! 99%nat.
Proof.
  destruct (write_touches_only_new_slots (P:=demo) eq_refl eq_refl 16 0 [] 16
              (demoState 100 3 0))
    as (s' & t & Hrun & _ & _ & Hd2); [apply demoState_wf; lia | lia | reflexivity | lia |].
  exists s', t. split; [exact Hrun |]. apply Hd2. left.
  rewrite demo_periodCheck_idle. cbn. lia.
Defined.

Lemma write_emissions_sorted_witness :
  exists s' t,
    writeData (P:=demo) 40 0 [] 80 (demoState 100 3 0) = Ok (80, s', t) /\
    StronglySorted Z.le (emissions t).
Proof.
  destruct (write_emissions_sorted (P:=demo) eq_refl eq_refl 40 0 [] 40
              (demoState 100 3 0))
    as (s' & t & Hrun & Hsorted & _);
    [apply demoState_wf; lia | lia | reflexivity | lia |].
  exists s', t. split; [exact Hrun | exact Hsorted].
Defined.

(** Four slots from the end, the block of four no longer passes the
    check. *)
Lemma write_plateau_witness :
  exists s' t,
    writeData (P:=demo) 16 0 [] 32 (demoState 719996 0 0) = Ok (32, s', t) /\
    kin s' = 719996 /\ writtenIndices t = [].
Proof.
  destruct (write_plateau (P:=demo) eq_refl eq_refl 16 0 [] 16 (demoState 719996 0 0))
    as (s' & t & Hrun & Hkin & _ & Hwi & _);
    [apply demoState_wf; lia | lia | reflexivity | lia | |].
  - rewrite demo_periodCheck_idle, demoState_size. cbn. lia.
  - exists s', t. split; [exact Hrun |]. split; [| exact Hwi].
    rewrite Hkin, demo_periodCheck_idle. reflexivity.
Defined.

Lemma write_nothing_witness :
  writeData (P:=demo) 0 0 [] 0 (demoState 100 3 0)
  = Ok (0, periodCheck 0 (demoState 100 3 0), [EvLock; EvUnlock]).
Proof. exact (write_nothing (P:=demo) eq_refl 0 0 [] (demoState 100 3 0)). Defined.

Lemma write_when_full_stores_nothing_witness :
  writeData (P:=demo) 0 0 [] 8 (demoState 720000 3 0)
  = Ok (8, demoState 720000 3 0, [EvLock; EvDropped 4 720000 0; EvUnlock]).
Proof.
  change 8 with (4 * bytesPerFrame (Platform:=demo)).
  rewrite (write_when_full_stores_nothing (P:=demo) eq_refl eq_refl 0 0 [] 4
             (demoState 720000 3 0)).
  - rewrite demo_periodCheck_idle, demoState_size. reflexivity.
  - apply demoState_wf; lia.
  - lia.
  - reflexivity.
  - rewrite demo_periodCheck_idle, demoState_size. reflexivity.
Defined.

Lemma write_block_size_zero_never_ends_witness :
  writeData (P:=demo) 1000 0 [] 8 (setBlockSize 0 (demoState 100 0 0)) = Err OutOfFuel.
Proof.
  apply (write_block_size_zero_never_ends (P:=demo) eq_refl 1000 0 [] 4
           (demoState 100 0 0)).
  - lia.
  - reflexivity.
  - reflexivity.
  - vm_compute. reflexivity.
Defined.

Lemma write_partial_window_witness :
  exists s',
    writeData (P:=demo) 1 0 [] 8 (demoState 100 3 0)
    = Ok (8, s', [EvLock; EvStore 0 4 3; EvUnlock]) /\
    m_bufferPos s' = 7.
Proof.
  destruct (write_partial_window (P:=demo) eq_refl eq_refl 0 0 [] 4 (demoState 100 3 0))
    as (s' & Hrun & _ & Hpos & _).
  - apply demoState_wf; lia.
  - lia.
  - reflexivity.
  - rewrite demo_periodCheck_idle, demoState_size. cbn. lia.
  - rewrite demo_periodCheck_idle. cbn. lia.
  - exists s'. rewrite demo_periodCheck_idle in Hrun, Hpos.
    split; [exact Hrun | exact Hpos].
Defined.

(** Eight frames, then twelve: together they fill the window once. *)
Lemma write_in_two_parts_witness :
  exists sa ta sb tb sT tT,
    writeData (P:=demo) 20 0 [] 16 (demoState 100 3 0) = Ok (16, sa, ta) /\
    writeData (P:=demo) 20 500 [] 24 sa = Ok (24, sb, tb) /\
    writeData (P:=demo) 20 0 [] 40 (demoState 100 3 0) = Ok (40, sT, tT) /\
    kin sb = kin sT /\ m_bufferPos sb = m_bufferPos sT.
Proof.
  destruct (write_in_two_parts (P:=demo) eq_refl eq_refl 20 0 500 [] [] [] 8 12
              (demoState 100 3 0))
    as (sa & ta & sb & tb & sT & tT & H1 & H2 & HT & Hk & Hp & _).
  - apply demoState_wf; lia.
  - lia.
  - lia.
  - reflexivity.
  - lia.
  - vm_compute. discriminate.
  - vm_compute. reflexivity.
  - vm_compute. discriminate.
  - exists sa, ta, sb, tb, sT, tT. repeat (split; [assumption |]). assumption.
Defined.
